(** * COVID-19 dashboard: the reshaping and derived-metrics pipeline

    A shallow embedding of [data_processor.py] (class [CovidDataProcessor]):
    the wide table is melted to one row per subdivision and date, the date
    labels are converted, the counts are summed per (country, date), and the
    daily increment and its trailing seven-point mean are derived.  The
    pandas operations the source calls are written out as list functions
    with the behaviour pandas documents for them; the methods of the class
    are written in a small state-and-exception monad over the object's three
    attributes.

    Scope of the data model.  [read_csv] gives text or missing values in the
    Country/Region column and integers or missing values in the date
    columns; the model reads any other cell in those places as missing.
    Column names are unique, as [read_csv] makes them.

    Numbers.  The date columns are int64 columns: the sum of a group is an
    int64 sum and wraps around modulo 2^64.  [diff] works in float64: both
    counts are converted to the nearest float64 and their difference is
    rounded again, so [Daily_New] is the exact difference only while the
    counts stay within 2^53.  A missing count makes pandas hold the whole
    column in float64; this agrees with the int64 sums written here as long
    as the absolute values of a group add up to at most 2^53.  The theorems
    that speak about the values of sums and differences state these bounds.
    Means are exact rationals (the source rounds them to float64). *)

From Stdlib Require Import ZArith QArith List String Ascii Bool Lia Sorted.
From Stdlib Require Import OrderedTypeEx.
From Stdlib Require Import Lqa.
Import ListNotations.

Local Open Scope string_scope.
Local Open Scope Z_scope.

(** ** Cells, tables and timestamps *)

(** A value of a data frame: text, an integer, or NaN. *)
Inductive Cell : Type :=
| CStr (s : string)
| CNum (z : Z)
| CNaN.

(** [datetime64[ns]]: nanoseconds since 1970-01-01. *)
Definition Timestamp : Type := Z.

(** The Date column of the melted frame: first the column labels, after
    [to_datetime] timestamps or NaT. *)
Inductive DateCell : Type :=
| DStr (label : string)
| DTime (t : Timestamp)
| DNaT.

(** [self.data]: the wide frame as [read_csv] returns it. *)
Record RawTable : Type := mkRawTable {
  columns : list string;
  rows : list (list Cell)
}.

(** A row of [melted_df]. *)
Record Melted : Type := mkMelted {
  m_province : Cell;
  m_country : Cell;
  m_lat : Cell;
  m_long : Cell;
  m_date : DateCell;
  m_confirmed : Cell
}.

(** A row of [country_data]. *)
Record CountryRow : Type := mkCountryRow {
  Country : string;
  Date : Timestamp;
  Confirmed : Z;
  Daily_New : Z;
  Seven_Day_Average : Q
}.

Definition cell_text (c : Cell) : option string :=
  match c with CStr s => Some s | _ => None end.

Definition cell_count (c : Cell) : option Z :=
  match c with CNum z => Some z | _ => None end.

Definition is_text (c : Cell) : bool :=
  match c with CStr _ => true | _ => false end.

(** ** Calendar arithmetic and the two [strptime] formats *)

Module Calendar.

Definition is_leap (y : Z) : bool :=
  (y mod 4 =? 0) && (negb (y mod 100 =? 0) || (y mod 400 =? 0)).

Definition days_in_month (y m : Z) : Z :=
  if m =? 2 then (if is_leap y then 29 else 28)
  else if (m =? 4) || (m =? 6) || (m =? 9) || (m =? 11) then 30
  else 31.

(** Days from 1970-01-01 to the proleptic Gregorian date y-m-d. *)
Definition days_from_civil (y m d : Z) : Z :=
  let y' := if m <=? 2 then y - 1 else y in
  let era := y' / 400 in
  let yoe := y' - era * 400 in
  let mp := (m + 9) mod 12 in
  let doy := (153 * mp + 2) / 5 + d - 1 in
  let doe := yoe * 365 + yoe / 4 - yoe / 100 + doy in
  era * 146097 + doe - 719468.

Definition ns_per_day : Z := 86400 * 1000000000.

Definition timestamp_of (y m d : Z) : option Timestamp :=
  if (1 <=? m) && (m <=? 12) && (1 <=? d) && (d <=? days_in_month y m)
  then Some (days_from_civil y m d * ns_per_day)
  else None.

Definition digit_val (a : ascii) : option Z :=
  let n := Z.of_nat (nat_of_ascii a) in
  if (48 <=? n) && (n <=? 57) then Some (n - 48) else None.

Fixpoint digits_val (acc : Z) (s : string) : option Z :=
  match s with
  | EmptyString => Some acc
  | String a rest =>
      match digit_val a with
      | Some d => digits_val (10 * acc + d) rest
      | None => None
      end
  end.

(** A field of between [lo] and [hi] decimal digits. *)
Definition field (lo hi : nat) (s : string) : option Z :=
  let n := String.length s in
  if (Nat.leb lo n) && (Nat.leb n hi) then digits_val 0 s else None.

Fixpoint split_on (sep : ascii) (cur : string) (s : string) : list string :=
  match s with
  | EmptyString => [cur]
  | String a rest =>
      if Ascii.eqb a sep then cur :: split_on sep EmptyString rest
      else split_on sep (cur ++ String a EmptyString) rest
  end.

(** [format='%m/%d/%y']: month and day of one or two digits, a two-digit
    year read as 2000-2068 or 1969-1999. *)
Definition strptime_mdy (s : string) : option Timestamp :=
  match split_on "/"%char EmptyString s with
  | [ms; ds; ys] =>
      match field 1 2 ms, field 1 2 ds, field 2 2 ys with
      | Some m, Some d, Some yy =>
          timestamp_of (if yy <? 69 then 2000 + yy else 1900 + yy) m d
      | _, _, _ => None
      end
  | _ => None
  end.

(** [format='%Y-%m-%d']. *)
Definition strptime_ymd (s : string) : option Timestamp :=
  match split_on "-"%char EmptyString s with
  | [ys; ms; ds] =>
      match field 4 4 ys, field 1 2 ms, field 1 2 ds with
      | Some y, Some m, Some d => timestamp_of y m d
      | _, _, _ => None
      end
  | _ => None
  end.

(** A sample of the format inference of [to_datetime] without a [format]:
    the format is guessed from the first label of the column and applied
    to every label. Only the two formats above are guessed here; pandas
    knows more formats and other fallbacks, which is why the methods take
    the parser as a parameter and this one is used only on the sample
    tables. *)
Definition infer_parse (column : list string) (s : string) : option Timestamp :=
  match column with
  | [] => None
  | first :: _ =>
      match strptime_mdy first, strptime_ymd first with
      | Some _, _ => strptime_mdy s
      | None, Some _ => strptime_ymd s
      | None, None => None
      end
  end.

End Calendar.

(** ** Exceptions, debug messages and the processor object *)

Inductive Exn : Type :=
| ValueError (msg : string)
| KeyError (labels : list string)
| TypeError (msg : string)
| IndexError (msg : string)
| Exception (msg : string) (cause : Exn).

Inductive result (A : Type) : Type :=
| Ok (a : A)
| Err (e : Exn).
Arguments Ok {A} a.
Arguments Err {A} e.

(** The [start_date] and [end_date] arguments of [filter_data]: whatever
    [pd.to_datetime] accepts, here a timestamp or a text to parse. *)
Inductive DateArg : Type :=
| ATime (t : Timestamp)
| AStr (s : string).

(** One entry of [debug_info]: the literal text of the f-string and the
    values it interpolates (the traceback text is not kept). *)
Inductive Debug : Type :=
| Msg (text : string)
| MsgNum (text : string) (n : nat) (rest : string)
| MsgShape (text : string) (nrows ncols : nat)
| MsgCols (text : string) (cols : list string)
| MsgText (text : string) (value : string)
| MsgErr (text : string) (e : Exn)
| MsgFilter (country : string) (start_date end_date : DateArg).

Record Processor : Type := mkProcessor {
  data : option RawTable;
  country_data : option (list CountryRow);
  debug_info : list Debug
}.

(** [CovidDataProcessor.__init__] *)
Definition init : Processor := mkProcessor None None [].

(** Methods run on the object and either return or raise. *)
Definition M (A : Type) : Type := Processor -> result A * Processor.

Definition ret {A} (a : A) : M A := fun self => (Ok a, self).

Definition bind {A B} (c : M A) (k : A -> M B) : M B :=
  fun self =>
    match c self with
    | (Ok a, self') => k a self'
    | (Err e, self') => (Err e, self')
    end.

Definition raise {A} (e : Exn) : M A := fun self => (Err e, self).

Definition lift {A} (r : result A) : M A := fun self => (r, self).

Definition get_self : M Processor := fun self => (Ok self, self).

Definition set_data (df : RawTable) : M unit :=
  fun self => (Ok tt, mkProcessor (Some df) (country_data self) (debug_info self)).

Definition set_country_data (cd : list CountryRow) : M unit :=
  fun self => (Ok tt, mkProcessor (data self) (Some cd) (debug_info self)).

(** [try: body except Exception as e: handler e] *)
Definition try_except {A} (body : M A) (handler : Exn -> M A) : M A :=
  fun self =>
    match body self with
    | (Ok a, self') => (Ok a, self')
    | (Err e, self') => handler e self'
    end.

Declare Scope method_scope.
Delimit Scope method_scope with method.
Notation "x <- c ;; k" := (bind c (fun x => k))
  (at level 61, c at next level, right associativity) : method_scope.
Notation "c ;; k" := (bind c (fun _ => k))
  (at level 61, right associativity) : method_scope.

(** [log_debug]: the message is appended to [debug_info] (and printed). *)
Definition log_debug (message : Debug) : M unit :=
  fun self =>
    (Ok tt, mkProcessor (data self) (country_data self) (debug_info self ++ [message])).

(** ** The pandas operations of the pipeline *)

Module Pandas.

Definition has_column (name : string) (cols : list string) : bool :=
  existsb (String.eqb name) cols.

Fixpoint column_index (name : string) (cols : list string) : option nat :=
  match cols with
  | [] => None
  | c :: rest =>
      if String.eqb name c then Some O else option_map S (column_index name rest)
  end.

(** The value of a row in the column called [name]. *)
Definition cell_at (cols : list string) (row : list Cell) (name : string) : Cell :=
  match column_index name cols with
  | Some i => nth i row CNaN
  | None => CNaN
  end.

(** [df[name]]: the column, or [KeyError]. *)
Definition get_column (df : RawTable) (name : string) : result (list Cell) :=
  if has_column name (columns df)
  then Ok (map (fun row => cell_at (columns df) row name) (rows df))
  else Err (KeyError [name]).

(** [df.melt(id_vars, value_vars, var_name='Date', value_name='Confirmed')]:
    the value name may not be a column already; every id and value label
    must be a column; the identification columns are repeated for each
    remaining value column, one value column after the other. *)
Definition melt (df : RawTable) (id_vars value_vars : list string)
  : result (list Melted) :=
  if has_column "Confirmed" (columns df)
  then Err (ValueError "value_name (Confirmed) cannot match an element in the DataFrame columns.")
  else
    match filter (fun c => negb (has_column c (columns df))) (id_vars ++ value_vars) with
    | (_ :: _) as missing => Err (KeyError missing)
    | [] =>
        let value_columns :=
          filter (fun c => negb (has_column c id_vars)) value_vars in
        Ok (flat_map
              (fun label =>
                 map (fun row =>
                        mkMelted (cell_at (columns df) row "Province/State")
                                 (cell_at (columns df) row "Country/Region")
                                 (cell_at (columns df) row "Lat")
                                 (cell_at (columns df) row "Long")
                                 (DStr label)
                                 (cell_at (columns df) row label))
                     (rows df))
              value_columns)
    end.

(** The text cells of a column, from which a format may be inferred. *)
Definition labels_of (col : list DateCell) : list string :=
  flat_map (fun c => match c with DStr s => [s] | _ => [] end) col.

(** [pd.to_datetime(col, errors='coerce')] with the label parser [parse]:
    a text cell is parsed, or becomes NaT; a cell that already is a
    timestamp or NaT is returned as it is. *)
Definition to_datetime (parse : string -> option Timestamp) (col : list DateCell)
  : list DateCell :=
  map (fun c =>
         match c with
         | DStr s => match parse s with Some t => DTime t | None => DNaT end
         | DTime t => DTime t
         | DNaT => DNaT
         end) col.

Definition isna (c : DateCell) : bool :=
  match c with DNaT => true | _ => false end.

(** [col.isna().sum()] *)
Definition isna_sum (col : list DateCell) : nat := List.length (filter isna col).

(** [melted_df['Date'] = col] *)
Definition assign_date (frame : list Melted) (col : list DateCell) : list Melted :=
  map (fun rc : Melted * DateCell =>
         let (r, d) := rc in
         mkMelted (m_province r) (m_country r) (m_lat r) (m_long r) d (m_confirmed r))
      (combine frame col).

(** Group keys in the order [groupby(..., sort=True)] gives them: by
    country (code-point order), then by date. *)
Definition key_ltb (k1 k2 : string * Timestamp) : bool :=
  match String.compare (fst k1) (fst k2) with
  | Lt => true
  | Eq => snd k1 <? snd k2
  | Gt => false
  end.

Definition key_eqb (k1 k2 : string * Timestamp) : bool :=
  String.eqb (fst k1) (fst k2) && (snd k1 =? snd k2).

(** A row of the grouped frame after [reset_index()]. *)
Record Grouped : Type := mkGrouped {
  g_country : string;
  g_date : Timestamp;
  g_confirmed : Z
}.

Definition g_key (g : Grouped) : string * Timestamp := (g_country g, g_date g).

(** An int64 result: the integer taken modulo 2^64 into
    [-2^63, 2^63). *)
Definition wrap_int64 (z : Z) : Z := (z + 2 ^ 63) mod 2 ^ 64 - 2 ^ 63.

(** int64 addition wraps around. *)
Definition int64_add (a b : Z) : Z := wrap_int64 (a + b).

(** [n / d] rounded to the nearest integer, a tie to the even one. *)
Definition round_half_even (n d : Z) : Z :=
  let q := n / d in
  let r := n mod d in
  if 2 * r <? d then q
  else if d <? 2 * r then q + 1
  else if Z.even q then q else q + 1.

(** The float64 nearest to an integer (of the int64 range): integers up to
    2^53 are float64 values; a larger one is rounded to 53 significant
    bits, a tie to the even significand. *)
Definition float64_of_Z (z : Z) : Z :=
  if Z.abs z <=? 2 ^ 53 then z
  else
    let ulp := 2 ^ (Z.log2 (Z.abs z) - 52) in
    Z.sgn z * (round_half_even (Z.abs z) ulp * ulp).

(** The difference of two int64 values in float64: both are converted,
    and the difference of the two float64 values is rounded. *)
Definition float64_sub (a b : Z) : Z :=
  float64_of_Z (float64_of_Z a - float64_of_Z b).

Arguments wrap_int64 : simpl never.
Arguments int64_add : simpl never.
Arguments float64_of_Z : simpl never.
Arguments float64_sub : simpl never.

(** Adding one value to its group, the groups kept in key order; the sum
    of a group starts at 0 and is kept in int64. *)
Fixpoint add_to_group (k : string * Timestamp) (v : Z) (groups : list Grouped)
  : list Grouped :=
  match groups with
  | [] => [mkGrouped (fst k) (snd k) (int64_add 0 v)]
  | g :: rest =>
      if key_ltb k (g_key g)
      then mkGrouped (fst k) (snd k) (int64_add 0 v) :: groups
      else if key_eqb k (g_key g)
           then mkGrouped (g_country g) (g_date g)
                  (int64_add (g_confirmed g) v) :: rest
           else g :: add_to_group k v rest
  end.

(** The group of a melted row; a row whose country or date is missing has
    none ([dropna=True]). *)
Definition group_key (r : Melted) : option (string * Timestamp) :=
  match cell_text (m_country r), m_date r with
  | Some c, DTime t => Some (c, t)
  | _, _ => None
  end.

(** What a cell adds to [sum()]: NaN is skipped. *)
Definition sum_value (c : Cell) : Z :=
  match cell_count c with Some z => z | None => 0 end.

(** One row of the frame put into the groups. *)
Definition group_step (groups : list Grouped) (r : Melted) : list Grouped :=
  match group_key r with
  | Some k => add_to_group k (sum_value (m_confirmed r)) groups
  | None => groups
  end.

(** [frame.groupby(['Country/Region', 'Date'])['Confirmed'].sum().reset_index()] *)
Definition groupby_sum (frame : list Melted) : list Grouped :=
  fold_left group_step frame [].

(** The latest earlier value of the same group; [seen] holds the earlier
    rows, the latest first. *)
Fixpoint previous (c : string) (seen : list (string * Z)) : option Z :=
  match seen with
  | [] => None
  | (c', v) :: rest => if String.eqb c c' then Some v else previous c rest
  end.

(** [frame.groupby('Country/Region')['Confirmed'].diff()]: each row minus
    the previous row of its group, in float64; NaN ([None]) on a group's
    first row. *)
Fixpoint groupby_diff (seen : list (string * Z)) (frame : list (string * Z))
  : list (option Z) :=
  match frame with
  | [] => []
  | (c, v) :: rest =>
      option_map (fun p => float64_sub v p) (previous c seen)
        :: groupby_diff ((c, v) :: seen) rest
  end.

(** [.fillna(0)] *)
Definition fillna (fill : Z) (col : list (option Z)) : list Z :=
  map (fun x => match x with Some z => z | None => fill end) col.

(** [.clip(lower=lo)] *)
Definition clip_lower (lo : Z) (col : list Z) : list Z := map (Z.max lo) col.

(** The earlier values of a group, the latest first. *)
Definition earlier (c : string) (seen : list (string * Z)) : list Z :=
  map snd (filter (fun cv => String.eqb c (fst cv)) seen).

Definition sum_Z (l : list Z) : Z := fold_right Z.add 0 l.

(** The mean of a non-empty window. *)
Definition mean (window : list Z) : Q :=
  Qmake (sum_Z window) (Pos.of_nat (List.length window)).

(** [frame.groupby('Country/Region')[col].rolling(window, min_periods=1).mean()]
    put back in row order: the mean of the row's value and of up to
    [window - 1] values before it in its group. *)
Fixpoint groupby_rolling_mean (window : nat) (seen : list (string * Z))
  (frame : list (string * Z)) : list Q :=
  match frame with
  | [] => []
  | (c, v) :: rest =>
      mean (firstn window (v :: earlier c seen))
        :: groupby_rolling_mean window ((c, v) :: seen) rest
  end.

(** [country_data['Daily_New'] = ...] and
    [country_data['Seven_Day_Average'] = ...]: the columns are set by
    position. *)
Definition assign_metrics (frame : list Grouped) (daily : list Z) (avg : list Q)
  : list CountryRow :=
  map (fun gda : Grouped * (Z * Q) =>
         let (g, da) := gda in
         mkCountryRow (g_country g) (g_date g) (g_confirmed g) (fst da) (snd da))
      (combine frame (combine daily avg)).

Definition cell_eqb (a b : Cell) : bool :=
  match a, b with
  | CStr s, CStr t => String.eqb s t
  | CNum x, CNum y => x =? y
  | CNaN, CNaN => true
  | _, _ => false
  end.

(** [col.unique()]: the distinct values in order of first appearance. *)
Fixpoint unique (col : list Cell) : list Cell :=
  match col with
  | [] => []
  | c :: rest => c :: filter (fun x => negb (cell_eqb c x)) (unique rest)
  end.

End Pandas.

(** ** Python's [sorted] on the country names *)

Fixpoint insert_sorted (s : string) (l : list string) : list string :=
  match l with
  | [] => [s]
  | x :: rest => if String.leb s x then s :: l else x :: insert_sorted s rest
  end.

Definition sort_strings (l : list string) : list string :=
  fold_right insert_sorted [] l.

Definition texts (l : list Cell) : list string :=
  flat_map (fun c => match c with CStr s => [s] | _ => [] end) l.

(** [sorted(values)] on the values of the Country/Region column, texts
    and missing values: text values are put in code-point order; a list of
    at most one value needs no comparison; comparing a text with a missing
    value raises [TypeError]. Lists of numbers, which Python would sort,
    are outside the data model. *)
Definition sorted (values : list Cell) : result (list Cell) :=
  if forallb is_text values then Ok (map CStr (sort_strings (texts values)))
  else if Nat.leb (List.length values) 1 then Ok values
  else Err (TypeError "'<' not supported between instances of 'float' and 'str'").

(** ** The methods of [CovidDataProcessor] *)

Section Methods.

Local Open Scope method_scope.

(** [pd.to_datetime] without a [format]: the parser pandas applies to a
    label, given the labels of the column it belongs to (from which it may
    infer one format for all of them); [None] where the label cannot be
    parsed. *)
Variable guess_parse : list string -> string -> option Timestamp.

Definition id_vars : list string :=
  ["Province/State"; "Country/Region"; "Lat"; "Long"].

(** The three derivation steps of [process_data] on the grouped frame:
    [Daily_New] by difference within the country, clipped at zero, and
    [Seven_Day_Average] over it. *)
Definition daily_new (grouped : list Pandas.Grouped) : list Z :=
  Pandas.clip_lower 0
    (Pandas.fillna 0
       (Pandas.groupby_diff []
          (map (fun g => (Pandas.g_country g, Pandas.g_confirmed g)) grouped))).

Definition seven_day_average (grouped : list Pandas.Grouped) (daily : list Z)
  : list Q :=
  Pandas.groupby_rolling_mean 7 []
    (combine (map Pandas.g_country grouped) daily).

(** The Date column after the conversion and, when it left NaT values, the
    second conversion; the second one is given the converted column. *)
Definition convert_dates (col : list DateCell) : list DateCell :=
  let converted := Pandas.to_datetime (guess_parse (Pandas.labels_of col)) col in
  if Nat.ltb 0 (Pandas.isna_sum converted)
  then Pandas.to_datetime Calendar.strptime_mdy converted
  else converted.

(** [process_data]. The three checks that the Date column is present
    cannot fire on frames of these types and have no counterpart here. *)
Definition process_data : M (list CountryRow) :=
  try_except
    (self <- get_self ;;
     match data self with
     | None =>
         log_debug (Msg "No data to process") ;;
         raise (ValueError "No data to process. Please load data first.")
     | Some df =>
         log_debug (Msg "Starting data processing") ;;
         log_debug (MsgCols "Original data columns: " (firstn 10 (columns df))) ;;
         let date_columns := skipn 4 (columns df) in
         log_debug (MsgNum "Identified " (List.length date_columns) " date columns") ;;
         log_debug (Msg "Melting dataframe...") ;;
         melted_df <- lift (Pandas.melt df id_vars date_columns) ;;
         log_debug (MsgShape "Melted dataframe shape: " (List.length melted_df) 6) ;;
         log_debug (MsgCols "Melted dataframe columns: "
                            (id_vars ++ ["Date"; "Confirmed"])) ;;
         log_debug (Msg "Converting dates to datetime objects") ;;
         let dates :=
           Pandas.to_datetime
             (guess_parse (Pandas.labels_of (map m_date melted_df)))
             (map m_date melted_df) in
         let nat_count := Pandas.isna_sum dates in
         log_debug (MsgNum "NaT values after date conversion: " nat_count "") ;;
         dates <-
           (if Nat.ltb 0 nat_count
            then
              log_debug (Msg "Trying alternative date parsing") ;;
              let dates := Pandas.to_datetime Calendar.strptime_mdy dates in
              let nat_count := Pandas.isna_sum dates in
              log_debug (MsgNum "NaT values after alternative date parsing: "
                                nat_count "") ;;
              ret dates
            else ret dates) ;;
         let melted_df := Pandas.assign_date melted_df dates in
         log_debug (Msg "Grouping by country and date") ;;
         let grouped := Pandas.groupby_sum melted_df in
         log_debug (MsgShape "Country data shape after grouping: "
                             (List.length grouped) 3) ;;
         log_debug (MsgCols "Country data columns: "
                            ["Country/Region"; "Date"; "Confirmed"]) ;;
         log_debug (Msg "Calculating daily new cases") ;;
         let daily := daily_new grouped in
         log_debug (Msg "Calculating 7-day moving average") ;;
         let avg := seven_day_average grouped daily in
         let country_data := Pandas.assign_metrics grouped daily avg in
         set_country_data country_data ;;
         log_debug (MsgShape "Final country data shape: "
                             (List.length country_data) 5) ;;
         log_debug (MsgCols "Final country data columns: "
                            ["Country/Region"; "Date"; "Confirmed"; "Daily_New";
                             "Seven_Day_Average"]) ;;
         (match country_data with
          | [] => log_debug (Msg "Warning: country_data is empty")
          | _ :: _ => ret tt
          end) ;;
         ret country_data
     end)
    (fun e =>
       log_debug (MsgErr "Error in process_data: " e) ;;
       raise e).

(** [load_data]; [fetched] is what [pd.read_csv(url)] returned or raised. *)
Definition load_data (fetched : result RawTable) : M (list CountryRow) :=
  try_except
    (log_debug (Msg "Starting to load data") ;;
     df <- lift fetched ;;
     set_data df ;;
     log_debug (MsgShape "Data loaded successfully. Shape: "
                         (List.length (rows df)) (List.length (columns df))) ;;
     log_debug (MsgCols "Columns: " (firstn 10 (columns df))) ;;
     processed_data <- process_data ;;
     log_debug (Msg "Data processed successfully") ;;
     ret processed_data)
    (fun e =>
       log_debug (MsgErr "Error loading data: " e) ;;
       raise (Exception "Error loading data: " e)).

(** [get_country_list]: every exception ends in the empty list. *)
Definition get_country_list : M (list Cell) :=
  try_except
    (self <- get_self ;;
     match data self with
     | None =>
         log_debug (Msg "Data not loaded for get_country_list") ;;
         ret []
     | Some df =>
         col <- lift (Pandas.get_column df "Country/Region") ;;
         countries <- lift (sorted (Pandas.unique col)) ;;
         log_debug (MsgNum "Found " (List.length countries) " countries") ;;
         ret countries
     end)
    (fun e =>
       log_debug (MsgErr "Error in get_country_list: " e) ;;
       ret []).

(** [pd.to_datetime(arg)] on one argument: a timestamp is returned as it
    is, a text is parsed, and a text that cannot be parsed raises. The
    source's exception is pandas' [DateParseError], a [ValueError]; its
    text, which goes on to name the string, is cut short here. *)
Definition to_datetime_scalar (arg : DateArg) : result Timestamp :=
  match arg with
  | ATime t => Ok t
  | AStr s =>
      match guess_parse [s] s with
      | Some t => Ok t
      | None => Err (ValueError "Unknown datetime string format")
      end
  end.

(** [filter_data]. The table is read where the source checks
    [self.country_data]; nothing changes it between that check and the
    copy. *)
Definition filter_data (country : string) (start_date end_date : DateArg)
  : M (list CountryRow) :=
  try_except
    (log_debug (MsgFilter country start_date end_date) ;;
     self <- get_self ;;
     filtered_data <-
       (match country_data self with
        | Some country_data => ret country_data
        | None =>
            log_debug (Msg "country_data is None in filter_data") ;;
            log_debug (Msg "Attempting to process data") ;;
            (match data self with
             | Some _ => process_data ;; ret tt
             | None =>
                 log_debug (Msg "No data loaded to process") ;;
                 raise (ValueError "No data loaded. Please load data first.")
             end) ;;
            self <- get_self ;;
            match country_data self with
            | Some country_data => ret country_data
            | None =>
                log_debug (Msg "country_data still None after processing") ;;
                raise (ValueError "Data processing failed. country_data is still None.")
            end
        end) ;;
     log_debug (MsgShape "country_data shape: " (List.length filtered_data) 5) ;;
     log_debug (MsgCols "country_data columns: "
                        ["Country/Region"; "Date"; "Confirmed"; "Daily_New";
                         "Seven_Day_Average"]) ;;
     let filtered_data :=
       filter (fun r => String.eqb (Country r) country) filtered_data in
     log_debug (MsgShape "After country filter, shape: "
                         (List.length filtered_data) 5) ;;
     match filtered_data with
     | [] =>
         log_debug (MsgText "No data found for country: " country) ;;
         ret filtered_data
     | _ :: _ =>
         start <- lift (to_datetime_scalar start_date) ;;
         stop <- lift (to_datetime_scalar end_date) ;;
         let filtered_data :=
           filter (fun r => (start <=? Date r) && (Date r <=? stop))
                  filtered_data in
         log_debug (MsgShape "After date filter, shape: "
                             (List.length filtered_data) 5) ;;
         ret filtered_data
     end)
    (fun e =>
       log_debug (MsgErr "Error in filter_data: " e) ;;
       raise e).

End Methods.

(** ** The data flow of [process_data] without its log *)

(** The melted frame with its Date column converted. *)
Definition reshape (guess_parse : list string -> string -> option Timestamp)
  (df : RawTable) : result (list Melted) :=
  match Pandas.melt df id_vars (skipn 4 (columns df)) with
  | Ok melted_df =>
      Ok (Pandas.assign_date melted_df
            (convert_dates guess_parse (map m_date melted_df)))
  | Err e => Err e
  end.

(** Grouping and the two derived columns. *)
Definition derive (melted_df : list Melted) : list CountryRow :=
  let grouped := Pandas.groupby_sum melted_df in
  let daily := daily_new grouped in
  Pandas.assign_metrics grouped daily (seven_day_average grouped daily).

(** The rows of one country, in table order. *)
Definition series (c : string) (table : list CountryRow) : list CountryRow :=
  filter (fun r => String.eqb (Country r) c) table.

(** ** The lookup of [filter_data] without its log *)

Definition in_range (start stop : Timestamp) (r : CountryRow) : bool :=
  (start <=? Date r) && (Date r <=? stop).

Definition select (guess_parse : list string -> string -> option Timestamp)
  (table : list CountryRow) (country : string) (start_date end_date : DateArg)
  : result (list CountryRow) :=
  match series country table with
  | [] => Ok []
  | (_ :: _) as rows_of_country =>
      match to_datetime_scalar guess_parse start_date with
      | Err e => Err e
      | Ok start =>
          match to_datetime_scalar guess_parse end_date with
          | Err e => Err e
          | Ok stop => Ok (filter (in_range start stop) rows_of_country)
          end
      end
  end.

(** ** Reference definitions for the derived columns *)

(** The points [max(0, i-6) .. i] of a sequence. *)
Definition trailing_window (daily : list Z) (i : nat) : list Z :=
  firstn (i - (i - 6) + 1) (skipn (i - 6) daily).

Definition arithmetic_mean (l : list Z) : Q :=
  inject_Z (Pandas.sum_Z l) / inject_Z (Z.of_nat (List.length l)).

Definition date_lt (a b : CountryRow) : Prop := Date a < Date b.

Definition string_lt (a b : string) : Prop := String.compare a b = Lt.

Definition key_lt (a b : string * Timestamp) : Prop := Pandas.key_ltb a b = true.

(** ** Auxiliary definitions for the statements *)

(** The keys of a grouped frame, in row order. *)
Definition keys (groups : list Pandas.Grouped) : list (string * Timestamp) :=
  map Pandas.g_key groups.

(** The sum kept for a key. *)
Definition total (k : string * Timestamp) (groups : list Pandas.Grouped) : Z :=
  Pandas.sum_Z
    (map Pandas.g_confirmed
       (filter (fun g => Pandas.key_eqb k (Pandas.g_key g)) groups)).

(** The values a frame holds for a key. *)
Definition group_values (k : string * Timestamp) (frame : list Melted) : list Z :=
  map (fun r => Pandas.sum_value (m_confirmed r))
      (filter (fun r =>
                 match Pandas.group_key r with
                 | Some k' => Pandas.key_eqb k k'
                 | None => false
                 end) frame).

(** The values of the rows of country [c] in a frame of (country, value)
    pairs. *)
Definition col {X : Type} (c : string) (frame : list (string * X)) : list X :=
  map snd (filter (fun cv => String.eqb (fst cv) c) frame).

(** Difference to the previous value within one series, in float64. *)
Fixpoint local_diff (prev : option Z) (vals : list Z) : list Z :=
  match vals with
  | [] => []
  | v :: rest =>
      (match prev with Some p => Pandas.float64_sub v p | None => 0 end)
        :: local_diff (Some v) rest
  end.

(** A count that float64 holds exactly, and whose difference to another
    such count it holds exactly: a non-negative integer up to 2^53. *)
Definition exact_count (z : Z) : Prop := 0 <= z <= 2 ^ 53.

(** Counts whose sum is exact in int64 and in float64, in whatever order
    they are added: their absolute values add up to at most 2^53. *)
Definition exact_sum (vals : list Z) : Prop :=
  Pandas.sum_Z (map Z.abs vals) <= 2 ^ 53.

(** Rolling mean within one series; [past] holds the earlier values, the
    latest first. *)
Fixpoint local_roll (window : nat) (past : list Z) (vals : list Z) : list Q :=
  match vals with
  | [] => []
  | v :: rest =>
      Pandas.mean (firstn window (v :: past)) :: local_roll window (v :: past) rest
  end.

(** ** Sample tables *)

Definition header (date_labels : list string) : list string :=
  id_vars ++ date_labels.

(** Three days of the feed: two subdivisions of one country, one of them
    without a region name, and a second country whose total drops. *)
Definition feed : RawTable :=
  mkRawTable (header ["1/22/20"; "1/23/20"; "1/24/20"])
    [ [CStr "Hubei"; CStr "China"; CNum 30; CNum 112; CNum 5; CNum 9; CNum 7];
      [CNaN; CStr "China"; CNum 35; CNum 105; CNum 1; CNum 1; CNum 4];
      [CNaN; CStr "Albania"; CNum 41; CNum 20; CNum 3; CNum 2; CNum 6] ].

(** The object after [self.data] was set and before any derivation. *)
Definition loaded (df : RawTable) : Processor := mkProcessor (Some df) None [].

(** Eight rows of one country, for the rolling mean. *)
Definition eight_days : list Pandas.Grouped :=
  map (fun d => Pandas.mkGrouped "X" (d * Calendar.ns_per_day) 0)
      [1; 2; 3; 4; 5; 6; 7; 8].

(** The four identification columns and no date column. *)
Definition no_dates : RawTable :=
  mkRawTable (header []) [ [CStr "Hubei"; CStr "China"; CNum 30; CNum 112] ].

(** Date labels in two formats: the first one fixes the inferred format,
    the second one is in the feed's month/day/year format. *)
Definition mixed_labels : RawTable :=
  mkRawTable (header ["2020-01-22"; "1/23/20"])
    [ [CNaN; CStr "China"; CNum 35; CNum 105; CNum 5; CNum 9] ].

(** A table without the Country/Region column. *)
Definition no_country : RawTable :=
  mkRawTable ["Province/State"; "Lat"; "Long"; "1/22/20"]
    [ [CStr "Hubei"; CNum 30; CNum 112; CNum 5] ].

(** Counts beyond the exact ranges: two subdivisions that add up to 2^63
    on the first day, and a country whose count passes 2^53. *)
Definition large_counts : RawTable :=
  mkRawTable (header ["1/22/20"; "1/23/20"; "1/24/20"])
    [ [CStr "North"; CStr "X"; CNum 0; CNum 0; CNum (2 ^ 62); CNum 0; CNum 0];
      [CStr "South"; CStr "X"; CNum 0; CNum 0; CNum (2 ^ 62); CNum 0; CNum 0];
      [CNaN; CStr "Y"; CNum 0; CNum 0;
       CNum 0; CNum 9007199254740993; CNum 9007199254740996] ].

(** The object after the feed was loaded and processed. *)
Definition derived_feed : Processor :=
  snd (process_data Calendar.infer_parse (loaded feed)).

Definition day (d : Z) : Timestamp := d * Calendar.ns_per_day.

(** The long rows of the feed, dates converted. *)
Definition feed_long : list Melted :=
  match reshape Calendar.infer_parse feed with
  | Ok melted_df => melted_df
  | Err _ => []
  end.

(** A melted row with its region name removed. *)
Definition without_region (r : Melted) : Melted :=
  mkMelted CNaN (m_country r) (m_lat r) (m_long r) (m_date r) (m_confirmed r).

(** ** What a method leaves in place *)

(** [keeps R c]: running [c] takes every object to one related to it. *)
Definition keeps (R : Processor -> Processor -> Prop) {A : Type} (c : M A)
  : Prop :=
  forall self, R self (snd (c self)).

(** The log of [after] is the log of [before] with messages added. *)
Definition log_extends (before after : Processor) : Prop :=
  exists added, debug_info after = (debug_info before ++ added)%list.

Definition same_data (before after : Processor) : Prop :=
  data after = data before.

Definition same_country_data (before after : Processor) : Prop :=
  country_data after = country_data before.

(** ** The answer of [filter_data] in every state *)

(** The table [filter_data] reads: the stored one, or the one it derives
    from the loaded data. *)
Definition table_for (guess_parse : list string -> string -> option Timestamp)
  (self : Processor) : result (list CountryRow) :=
  match country_data self with
  | Some table => Ok table
  | None =>
      match data self with
      | None => Err (ValueError "No data loaded. Please load data first.")
      | Some df =>
          match reshape guess_parse df with
          | Ok melted_df => Ok (derive melted_df)
          | Err e => Err e
          end
      end
  end.

Definition answer (guess_parse : list string -> string -> option Timestamp)
  (self : Processor) (country : string) (start_date end_date : DateArg)
  : result (list CountryRow) :=
  match table_for guess_parse self with
  | Ok table => select guess_parse table country start_date end_date
  | Err e => Err e
  end.

(** The derived table after the call. *)
Definition store_after (guess_parse : list string -> string -> option Timestamp)
  (self : Processor) : option (list CountryRow) :=
  match table_for guess_parse self with
  | Ok table => Some table
  | Err _ => None
  end.

(** The value columns of the melt: the date columns that are not named
    like an identification column. *)
Definition value_columns (df : RawTable) : list string :=
  filter (fun c => negb (Pandas.has_column c id_vars)) (skipn 4 (columns df)).

(** ** [visualizations.py] *)

(** A float64 as far as the charts need it: a finite value (kept exact),
    an infinity or NaN. *)
Inductive Float : Type :=
| Finite (q : Q)
| PosInf
| NegInf
| NaN.

(** float64 division of two integer-valued numbers: a zero divisor gives
    an infinity, or NaN for 0/0, and raises nothing. *)
Definition float_div (a b : Z) : Float :=
  if b =? 0
  then (if 0 <? a then PosInf else if a <? 0 then NegInf else NaN)
  else Finite (inject_Z a / inject_Z b).

(** Adding a finite number. *)
Definition float_add (d : Q) (x : Float) : Float :=
  match x with
  | Finite q => Finite (q + d)
  | other => other
  end.

(** Multiplying by 100. *)
Definition times_100 (x : Float) : Float :=
  match x with
  | Finite q => Finite (q * 100)
  | other => other
  end.

Fixpoint pct_change_from (prev : Z) (col : list Z) : list Float :=
  match col with
  | [] => []
  | x :: rest => float_add (-1) (float_div x prev) :: pct_change_from x rest
  end.

(** [col.pct_change()]: each value divided by the one before it, minus 1;
    NaN on the first row. *)
Definition pct_change (col : list Z) : list Float :=
  match col with
  | [] => []
  | x :: rest => NaN :: pct_change_from x rest
  end.

Inductive TraceKind : Type := Line | Bar | Scatter.

(** One series of a figure. *)
Record Trace : Type := mkTrace {
  kind : TraceKind;
  trace_name : option string;
  xs : list Timestamp;
  ys : list Float;
  colour : option string;
  secondary_y : bool
}.

Record Figure : Type := mkFigure {
  title : string;
  xaxis_title : string;
  yaxis_title : string;
  hovermode : string;
  traces : list Trace
}.

Definition of_Z (z : Z) : Float := Finite (inject_Z z).

Definition create_total_cases_chart (data : list CountryRow) (country : string)
  : Figure :=
  mkFigure ("Total COVID-19 Cases in " ++ country) "Date" "Total Cases"
    "x unified"
    [mkTrace Line None (map Date data) (map (fun r => of_Z (Confirmed r)) data)
       None false].

Definition create_daily_cases_chart (data : list CountryRow) (country : string)
  : Figure :=
  mkFigure ("Daily New COVID-19 Cases in " ++ country) "Date" "Daily New Cases"
    "x unified"
    [mkTrace Bar (Some "Daily New Cases") (map Date data)
       (map (fun r => of_Z (Daily_New r)) data) (Some "lightblue") false;
     mkTrace Scatter (Some "7-day Moving Average") (map Date data)
       (map (fun r => Finite (Seven_Day_Average r)) data) (Some "red") true].

(** [px.line(x=..., y=...)] is given two columns and no frame. With no
    row both columns are empty, plotly reads each of them as a list of
    column names, and refuses a list for both axes. *)
Definition create_growth_rate_chart (data : list CountryRow) (country : string)
  : result Figure :=
  let growth_rate := map times_100 (pct_change (map Daily_New data)) in
  match data with
  | [] =>
      Err (ValueError
             "Cannot accept list of column references or list of columns for both `x` and `y`.")
  | _ :: _ =>
      Ok (mkFigure ("Daily Growth Rate in " ++ country ++ " (%)") "Date"
            "Growth Rate (%)" "x unified"
            [mkTrace Line None (map Date data) growth_rate None false])
  end.

(** ** [main.py]: what is shown for the rows [filter_data] returned *)

(** What the page shows. A metric holds the numbers the source formats
    into its texts; the warning holds the values of its text; the error box
    holds its text and the exception whose [str] follows it. *)
Inductive Widget : Type :=
| StWarning (country : string) (start_date end_date : Timestamp)
| StHeader (text : string)
| StSubheader (text : string)
| StMetric (label : string) (value : Float) (delta : option Float)
| StPlotlyChart (fig : Figure)
| StError (text : string) (e : Exn)
| StInfo (text : string).

(** [col.iloc[-k]]: the k-th value from the end; [None] stands for the
    [IndexError] of a position out of bounds. *)
Definition iloc_from_end {X : Type} (k : nat) (col : list X) : option X :=
  if Nat.leb 1 k && Nat.leb k (List.length col)
  then nth_error col (List.length col - k)
  else None.

(** [col.max()] of a column with first value [first]. *)
Definition max_Z (first : Z) (rest : list Z) : Z := fold_left Z.max rest first.

(** The lines of [main.py] after the call of [filter_data]: the widgets
    shown in order, and the exception that left the block, if one did. The
    three metrics before the growth rate are on the page when [iloc[-2]]
    raises its [IndexError]; the subheader of a chart is on the page when
    the chart function raises. *)
Definition show_selection (filtered_data : list CountryRow) (country : string)
  (start_date end_date : Timestamp) : list Widget * option Exn :=
  match filtered_data with
  | [] => ([StWarning country start_date end_date], None)
  | r :: rest =>
      let confirmed := map Confirmed filtered_data in
      let daily := map Daily_New filtered_data in
      let shown :=
        [StHeader "📈 Key Metrics";
         StMetric "Total Cases" (of_Z (last confirmed (Confirmed r)))
           (Some (of_Z (last daily (Daily_New r))));
         StMetric "Avg. Daily Cases" (Finite (Pandas.mean daily)) None;
         StMetric "Peak Daily Cases"
           (of_Z (max_Z (Daily_New r) (map Daily_New rest))) None] in
      match iloc_from_end 2 confirmed with
      | Some previous_total =>
          let shown :=
            (shown ++
             [StMetric "Latest Daily Growth"
                (times_100
                   (float_div (last confirmed (Confirmed r) - previous_total)
                      previous_total))
                None;
              StHeader "📊 Visualizations";
              StSubheader "Total Cases Over Time";
              StPlotlyChart (create_total_cases_chart filtered_data country);
              StSubheader "Daily New Cases";
              StPlotlyChart (create_daily_cases_chart filtered_data country);
              StSubheader "Daily Growth Rate"])%list in
          match create_growth_rate_chart filtered_data country with
          | Ok fig => ((shown ++ [StPlotlyChart fig])%list, None)
          | Err e => (shown, Some e)
          end
      | None =>
          (shown, Some (IndexError "single positional indexer is out-of-bounds"))
      end
  end.

(** With the [except Exception] of the page: an error box and a hint
    follow what was shown before the exception. *)
Definition page (filtered_data : list CountryRow) (country : string)
  (start_date end_date : Timestamp) : list Widget :=
  let (shown, raised) :=
    show_selection filtered_data country start_date end_date in
  match raised with
  | Some e =>
      (shown ++
       [StError "An error occurred: " e;
        StInfo "Please try refreshing the page or check your internet connection."])%list
  | None => shown
  end.

(** ** Reading a float64 *)

(** [x] is not below [lo]; NaN and plus infinity are not. *)
Definition not_below (lo : Q) (x : Float) : Prop :=
  match x with
  | Finite q => (lo <= q)%Q
  | PosInf => True
  | NegInf => False
  | NaN => True
  end.

Definition is_chart (w : Widget) : bool :=
  match w with StPlotlyChart _ => true | _ => false end.

Definition is_error (w : Widget) : bool :=
  match w with StError _ _ => true | _ => false end.

(** A table with an empty Country/Region cell. *)
Definition missing_country : RawTable :=
  mkRawTable (header ["1/22/20"])
    [ [CNaN; CStr "China"; CNum 35; CNum 105; CNum 5];
      [CNaN; CNaN; CNum 0; CNum 0; CNum 1] ].

(** * Properties *)

Local Open Scope list_scope.

(** ** int64 and float64 *)

Lemma wrap_int64_range z : - 2 ^ 63 <= Pandas.wrap_int64 z < 2 ^ 63.
Proof.
  unfold Pandas.wrap_int64.
  pose proof (Z.mod_pos_bound (z + 2 ^ 63) (2 ^ 64) ltac:(lia)). lia.
Qed.

Lemma wrap_int64_small z : - 2 ^ 63 <= z < 2 ^ 63 -> Pandas.wrap_int64 z = z.
Proof.
  intro H. unfold Pandas.wrap_int64. rewrite Z.mod_small by lia. lia.
Qed.

Lemma wrap_int64_add_l a b :
  Pandas.wrap_int64 (Pandas.wrap_int64 a + b) = Pandas.wrap_int64 (a + b).
Proof.
  unfold Pandas.wrap_int64. f_equal.
  replace ((a + 2 ^ 63) mod 2 ^ 64 - 2 ^ 63 + b + 2 ^ 63)
    with ((a + 2 ^ 63) mod 2 ^ 64 + b) by lia.
  rewrite Zplus_mod_idemp_l. f_equal. lia.
Qed.

Lemma wrap_int64_add_r a b :
  Pandas.wrap_int64 (a + Pandas.wrap_int64 b) = Pandas.wrap_int64 (a + b).
Proof. rewrite (Z.add_comm a), wrap_int64_add_l. f_equal. lia. Qed.

Lemma float64_of_Z_exact z : Z.abs z <= 2 ^ 53 -> Pandas.float64_of_Z z = z.
Proof.
  intro H. unfold Pandas.float64_of_Z.
  destruct (Z.leb_spec (Z.abs z) (2 ^ 53)); [reflexivity | lia].
Qed.

(** Within the exact range the float64 difference is the difference. *)
Lemma float64_sub_exact a b :
  exact_count a -> exact_count b -> Pandas.float64_sub a b = a - b.
Proof.
  unfold exact_count, Pandas.float64_sub. intros Ha Hb.
  rewrite (float64_of_Z_exact a), (float64_of_Z_exact b) by lia.
  apply float64_of_Z_exact. lia.
Qed.

Lemma sum_Z_abs (l : list Z) :
  Z.abs (Pandas.sum_Z l) <= Pandas.sum_Z (map Z.abs l).
Proof.
  unfold Pandas.sum_Z. induction l as [|x l IH]; simpl; lia.
Qed.

(** An exact sum is not changed by the wrap-around of int64. *)
Lemma exact_sum_wrap (vals : list Z) :
  exact_sum vals -> Pandas.wrap_int64 (Pandas.sum_Z vals) = Pandas.sum_Z vals.
Proof.
  unfold exact_sum. intro H. pose proof (sum_Z_abs vals) as Ha.
  apply wrap_int64_small.
  assert (2 ^ 53 < 2 ^ 63) by (apply Z.pow_lt_mono_r; lia).
  lia.
Qed.

(** Beyond the exact ranges: a sum that passes 2^63 wraps around, and a
    difference of counts above 2^53 is rounded. *)
Example int64_sum_wraps :
  Pandas.int64_add (2 ^ 62) (2 ^ 62) = -9223372036854775808.
Proof. reflexivity. Qed.

Example float64_diff_rounds :
  Pandas.float64_sub 9007199254740993 0 = 9007199254740992 /\
  Pandas.float64_sub 9007199254740996 9007199254740993 = 4.
Proof. split; reflexivity. Qed.

Example large_counts_derived :
  match reshape Calendar.infer_parse large_counts with
  | Ok long =>
      map (fun r => (Country r, Confirmed r, Daily_New r)) (derive long) =
      [("X", -9223372036854775808, 0); ("X", 0, 9223372036854775808);
       ("X", 0, 0);
       ("Y", 0, 0); ("Y", 9007199254740993, 9007199254740992);
       ("Y", 9007199254740996, 4)]
  | Err _ => False
  end.
Proof. vm_compute. reflexivity. Qed.

(** ** The order of the group keys *)

Lemma compare_refl (s : string) : String.compare s s = Eq.
Proof. apply String_as_OT.cmp_eq. reflexivity. Qed.

Lemma string_lt_trans (a b c : string) :
  string_lt a b -> string_lt b c -> string_lt a c.
Proof.
  unfold string_lt. intros Hab Hbc.
  apply String_as_OT.cmp_lt. apply String_as_OT.cmp_lt in Hab, Hbc.
  eapply String_as_OT.lt_trans; eassumption.
Qed.

Lemma compare_gt_lt (a b : string) :
  String.compare a b = Gt -> String.compare b a = Lt.
Proof.
  intro H. rewrite String.compare_antisym, H. reflexivity.
Qed.

Lemma key_eqb_eq (a b : string * Timestamp) :
  Pandas.key_eqb a b = true <-> a = b.
Proof.
  destruct a as [c d], b as [c' d']. unfold Pandas.key_eqb. simpl.
  rewrite andb_true_iff, String.eqb_eq, Z.eqb_eq.
  split; [intros [-> ->]; reflexivity | intro H; inversion H; auto].
Qed.

Lemma key_eqb_refl (a : string * Timestamp) : Pandas.key_eqb a a = true.
Proof. apply key_eqb_eq. reflexivity. Qed.

Lemma key_lt_irrefl (a : string * Timestamp) : ~ key_lt a a.
Proof.
  unfold key_lt, Pandas.key_ltb. rewrite compare_refl.
  rewrite Z.ltb_irrefl. discriminate.
Qed.

Lemma key_lt_trans (a b c : string * Timestamp) :
  key_lt a b -> key_lt b c -> key_lt a c.
Proof.
  destruct a as [ca da], b as [cb db], c as [cc dc].
  unfold key_lt, Pandas.key_ltb. simpl.
  destruct (String.compare ca cb) eqn:Hab; try discriminate;
    destruct (String.compare cb cc) eqn:Hbc; try discriminate; intros H1 H2.
  - apply String_as_OT.cmp_eq in Hab, Hbc. subst.
    rewrite compare_refl. apply Z.ltb_lt in H1, H2. apply Z.ltb_lt. lia.
  - apply String_as_OT.cmp_eq in Hab. subst. rewrite Hbc. reflexivity.
  - apply String_as_OT.cmp_eq in Hbc. subst. rewrite Hab. reflexivity.
  - rewrite (string_lt_trans _ _ _ Hab Hbc). reflexivity.
Qed.

Lemma key_trichotomy (a b : string * Timestamp) :
  Pandas.key_ltb a b = false -> Pandas.key_eqb a b = false -> key_lt b a.
Proof.
  destruct a as [ca da], b as [cb db].
  unfold key_lt, Pandas.key_ltb, Pandas.key_eqb. simpl.
  destruct (String.compare ca cb) eqn:Hab; try discriminate.
  - apply String_as_OT.cmp_eq in Hab. subst.
    rewrite compare_refl, String.eqb_refl. simpl.
    intros H1 H2. apply Z.ltb_ge in H1. apply Z.eqb_neq in H2.
    apply Z.ltb_lt. lia.
  - intros _ _. rewrite (compare_gt_lt _ _ Hab). reflexivity.
Qed.

(** ** Grouping *)

Lemma add_to_group_keys k v groups k' :
  In k' (keys (Pandas.add_to_group k v groups)) <-> k' = k \/ In k' (keys groups).
Proof.
  induction groups as [|g rest IH]; simpl.
  - destruct k; unfold Pandas.g_key; simpl. intuition congruence.
  - destruct (Pandas.key_ltb k (Pandas.g_key g)) eqn:Hlt.
    + simpl. destruct k; unfold Pandas.g_key at 1; simpl. intuition congruence.
    + destruct (Pandas.key_eqb k (Pandas.g_key g)) eqn:Heq.
      * apply key_eqb_eq in Heq. simpl.
        unfold Pandas.g_key at 1; simpl. fold (Pandas.g_key g).
        rewrite <- Heq. intuition congruence.
      * simpl. rewrite IH. intuition.
Qed.

Lemma add_to_group_sorted k v groups :
  StronglySorted key_lt (keys groups) ->
  StronglySorted key_lt (keys (Pandas.add_to_group k v groups)).
Proof.
  induction groups as [|g rest IH]; simpl; intro Hs.
  - constructor; constructor.
  - inversion Hs as [|? ? Hrest Hall]; subst.
    destruct (Pandas.key_ltb k (Pandas.g_key g)) eqn:Hlt.
    + simpl. constructor; [exact Hs|].
      destruct k as [c d]. unfold Pandas.g_key at 1. simpl.
      constructor; [exact Hlt|].
      eapply Forall_impl; [|exact Hall].
      intros a Ha. eapply key_lt_trans; [exact Hlt | exact Ha].
    + destruct (Pandas.key_eqb k (Pandas.g_key g)) eqn:Heq.
      * simpl. constructor; assumption.
      * simpl. constructor; [apply IH; assumption|].
        apply Forall_forall. intros k' Hin.
        apply add_to_group_keys in Hin. destruct Hin as [->|Hin].
        -- apply key_trichotomy; assumption.
        -- rewrite Forall_forall in Hall. apply Hall. exact Hin.
Qed.

Lemma groupby_fold_sorted frame : forall acc,
  StronglySorted key_lt (keys acc) ->
  StronglySorted key_lt (keys (fold_left Pandas.group_step frame acc)).
Proof.
  induction frame as [|r rest IH]; simpl; intros acc Hacc; [exact Hacc|].
  apply IH. unfold Pandas.group_step. destruct (Pandas.group_key r); [|exact Hacc].
  apply add_to_group_sorted. exact Hacc.
Qed.

Lemma groupby_sum_sorted frame :
  StronglySorted key_lt (keys (Pandas.groupby_sum frame)).
Proof. apply (groupby_fold_sorted frame []). constructor. Qed.

Lemma groupby_fold_keys frame : forall acc k,
  In k (keys (fold_left Pandas.group_step frame acc)) <->
  In k (keys acc) \/ exists r, In r frame /\ Pandas.group_key r = Some k.
Proof.
  induction frame as [|r rest IH]; simpl; intros acc k.
  - split; [auto | intros [H|[r [[] _]]]; exact H].
  - rewrite IH. unfold Pandas.group_step at 1.
    destruct (Pandas.group_key r) as [k0|] eqn:Hk.
    + rewrite add_to_group_keys. split.
      * intros [[->|H]|[r' [Hin Hr']]]; eauto.
      * intros [H|[r' [[<-|Hin] Hr']]]; eauto.
        left. left. congruence.
    + split.
      * intros [H|[r' [Hin Hr']]]; eauto.
      * intros [H|[r' [[<-|Hin] Hr']]]; eauto. congruence.
Qed.

Lemma sorted_keys_NoDup (l : list (string * Timestamp)) :
  StronglySorted key_lt l -> NoDup l.
Proof.
  induction 1 as [|a l Hs IH Hall]; constructor; [|exact IH].
  intro Hin. rewrite Forall_forall in Hall.
  exact (key_lt_irrefl a (Hall a Hin)).
Qed.

Lemma total_cons k g groups :
  total k (g :: groups) =
  (if Pandas.key_eqb k (Pandas.g_key g) then Pandas.g_confirmed g else 0)
  + total k groups.
Proof.
  unfold total. simpl.
  destruct (Pandas.key_eqb k (Pandas.g_key g)); reflexivity.
Qed.

(** Adding a value to its group adds it to the group's total, in int64. *)
Lemma total_add k v groups k' :
  Pandas.wrap_int64 (total k' (Pandas.add_to_group k v groups)) =
  Pandas.wrap_int64
    (total k' groups + (if Pandas.key_eqb k' k then v else 0)).
Proof.
  induction groups as [|g rest IH].
  - cbn [Pandas.add_to_group]. rewrite total_cons.
    destruct k as [c d]. unfold Pandas.g_key at 1.
    cbn [Pandas.g_country Pandas.g_date Pandas.g_confirmed fst snd].
    destruct (Pandas.key_eqb k' (c, d)).
    + unfold Pandas.int64_add. rewrite wrap_int64_add_l. f_equal; lia.
    + f_equal; lia.
  - cbn [Pandas.add_to_group].
    destruct (Pandas.key_ltb k (Pandas.g_key g)) eqn:Hlt.
    + rewrite (total_cons k' (Pandas.mkGrouped _ _ _)).
      destruct k as [c d]. unfold Pandas.g_key at 1.
      cbn [Pandas.g_country Pandas.g_date Pandas.g_confirmed fst snd].
      destruct (Pandas.key_eqb k' (c, d)).
      * unfold Pandas.int64_add. rewrite wrap_int64_add_l. f_equal; lia.
      * f_equal; lia.
    + destruct (Pandas.key_eqb k (Pandas.g_key g)) eqn:Heq.
      * apply key_eqb_eq in Heq. subst k.
        rewrite (total_cons k' (Pandas.mkGrouped _ _ _)), (total_cons k' g).
        unfold Pandas.g_key at 1.
        cbn [Pandas.g_country Pandas.g_date Pandas.g_confirmed].
        fold (Pandas.g_key g).
        destruct (Pandas.key_eqb k' (Pandas.g_key g)).
        -- unfold Pandas.int64_add. rewrite wrap_int64_add_l. f_equal; lia.
        -- f_equal; lia.
      * rewrite !(total_cons k' g).
        rewrite <- (wrap_int64_add_r _ (total k' (Pandas.add_to_group k v rest))).
        rewrite IH, wrap_int64_add_r. f_equal; lia.
Qed.

Lemma total_fold frame : forall acc k,
  Pandas.wrap_int64 (total k (fold_left Pandas.group_step frame acc)) =
  Pandas.wrap_int64 (total k acc + Pandas.sum_Z (group_values k frame)).
Proof.
  induction frame as [|r rest IH]; intros acc k.
  - unfold group_values. simpl. f_equal; lia.
  - cbn [fold_left]. rewrite IH.
    assert (Hstep :
      Pandas.wrap_int64 (total k (Pandas.group_step acc r)) =
      Pandas.wrap_int64
        (total k acc +
         match Pandas.group_key r with
         | Some k0 =>
             if Pandas.key_eqb k k0 then Pandas.sum_value (m_confirmed r) else 0
         | None => 0
         end)).
    { unfold Pandas.group_step. destruct (Pandas.group_key r) as [k0|].
      - apply total_add.
      - f_equal; lia. }
    rewrite <- wrap_int64_add_l, Hstep, wrap_int64_add_l. f_equal.
    unfold group_values. cbn [filter].
    destruct (Pandas.group_key r) as [k0|].
    + destruct (Pandas.key_eqb k k0); cbn [map]; unfold Pandas.sum_Z; simpl; lia.
    + lia.
Qed.

Lemma filter_absent_key (groups : list Pandas.Grouped) (k : string * Timestamp) :
  ~ In k (keys groups) ->
  filter (fun x => Pandas.key_eqb k (Pandas.g_key x)) groups = [].
Proof.
  induction groups as [|y rest IH]; simpl; intro Hnotin; [reflexivity|].
  destruct (Pandas.key_eqb k (Pandas.g_key y)) eqn:E.
  - apply key_eqb_eq in E. exfalso. apply Hnotin. left. auto.
  - apply IH. intro H. apply Hnotin. right. exact H.
Qed.

Lemma filter_unique_key (groups : list Pandas.Grouped) (g : Pandas.Grouped) :
  NoDup (keys groups) -> In g groups ->
  filter (fun x => Pandas.key_eqb (Pandas.g_key g) (Pandas.g_key x)) groups = [g].
Proof.
  induction groups as [|x rest IH]; simpl; intros Hnd Hin; [contradiction|].
  inversion Hnd as [|? ? Hnotin Hrest]; subst.
  destruct Hin as [->|Hin].
  - rewrite key_eqb_refl. f_equal. apply filter_absent_key. exact Hnotin.
  - destruct (Pandas.key_eqb (Pandas.g_key g) (Pandas.g_key x)) eqn:E.
    + apply key_eqb_eq in E. exfalso. apply Hnotin. rewrite <- E.
      apply in_map. exact Hin.
    + apply IH; assumption.
Qed.

(** Every sum of the grouped frame is an int64 value. *)
Lemma add_to_group_int64 k v groups :
  Forall (fun g => Pandas.wrap_int64 (Pandas.g_confirmed g) = Pandas.g_confirmed g)
         groups ->
  Forall (fun g => Pandas.wrap_int64 (Pandas.g_confirmed g) = Pandas.g_confirmed g)
         (Pandas.add_to_group k v groups).
Proof.
  assert (Hw : forall z, Pandas.wrap_int64 (Pandas.wrap_int64 z) = Pandas.wrap_int64 z).
  { intro z. apply wrap_int64_small, wrap_int64_range. }
  induction groups as [|g rest IH]; cbn [Pandas.add_to_group]; intro H.
  - constructor; [|constructor]. apply Hw.
  - inversion H as [|? ? Hg Hrest]; subst.
    destruct (Pandas.key_ltb k (Pandas.g_key g)).
    + constructor; [apply Hw | exact H].
    + destruct (Pandas.key_eqb k (Pandas.g_key g)).
      * constructor; [apply Hw | exact Hrest].
      * constructor; [exact Hg | apply IH; exact Hrest].
Qed.

Lemma groupby_fold_int64 frame : forall acc,
  Forall (fun g => Pandas.wrap_int64 (Pandas.g_confirmed g) = Pandas.g_confirmed g)
         acc ->
  Forall (fun g => Pandas.wrap_int64 (Pandas.g_confirmed g) = Pandas.g_confirmed g)
         (fold_left Pandas.group_step frame acc).
Proof.
  induction frame as [|r rest IH]; cbn [fold_left]; intros acc Hacc; [exact Hacc|].
  apply IH. unfold Pandas.group_step. destruct (Pandas.group_key r); [|exact Hacc].
  apply add_to_group_int64. exact Hacc.
Qed.

(** The count of a group is the int64 sum of the counts of its rows. *)
Lemma groupby_sum_wrapped frame g :
  In g (Pandas.groupby_sum frame) ->
  Pandas.g_confirmed g =
  Pandas.wrap_int64 (Pandas.sum_Z (group_values (Pandas.g_key g) frame)).
Proof.
  intro Hin.
  pose proof (total_fold frame [] (Pandas.g_key g)) as Ht.
  fold (Pandas.groupby_sum frame) in Ht.
  unfold total in Ht at 1.
  rewrite (filter_unique_key _ g) in Ht.
  - pose proof (groupby_fold_int64 frame [] (Forall_nil _)) as Hall.
    fold (Pandas.groupby_sum frame) in Hall.
    rewrite Forall_forall in Hall. specialize (Hall g Hin).
    unfold total in Ht. cbn [filter map] in Ht.
    unfold Pandas.sum_Z at 1 2 in Ht. cbn [fold_right] in Ht.
    rewrite Z.add_0_r in Ht. rewrite Z.add_0_l in Ht.
    rewrite <- Hall. exact Ht.
  - apply sorted_keys_NoDup. apply groupby_sum_sorted.
  - exact Hin.
Qed.

(** It is their sum when that is exact. *)
Lemma groupby_sum_total frame g :
  In g (Pandas.groupby_sum frame) ->
  exact_sum (group_values (Pandas.g_key g) frame) ->
  Pandas.g_confirmed g = Pandas.sum_Z (group_values (Pandas.g_key g) frame).
Proof.
  intros Hin Hex. rewrite (groupby_sum_wrapped frame g Hin).
  apply exact_sum_wrap. exact Hex.
Qed.

(** ** Columns of one country *)

Lemma col_map {X Y : Type} (f : X -> Y) c (cs : list string) (xs : list X) :
  col c (combine cs (map f xs)) = map f (col c (combine cs xs)).
Proof.
  unfold col. revert xs.
  induction cs as [|c0 cs IH]; intros [|x xs]; simpl; try reflexivity.
  destruct (String.eqb c0 c); simpl; rewrite IH; reflexivity.
Qed.

Lemma groupby_diff_length frame : forall seen,
  List.length (Pandas.groupby_diff seen frame) = List.length frame.
Proof.
  induction frame as [|[c v] rest IH]; simpl; intro seen; [reflexivity|].
  rewrite IH. reflexivity.
Qed.

Lemma groupby_rolling_mean_length w frame : forall seen,
  List.length (Pandas.groupby_rolling_mean w seen frame) = List.length frame.
Proof.
  induction frame as [|[c v] rest IH]; simpl; intro seen; [reflexivity|].
  rewrite IH. reflexivity.
Qed.

Lemma groupby_diff_col c frame : forall seen,
  col c (combine (map fst frame)
                 (Pandas.fillna 0 (Pandas.groupby_diff seen frame))) =
  local_diff (Pandas.previous c seen) (col c frame).
Proof.
  unfold col.
  induction frame as [|[c0 v] rest IH]; simpl; intro seen; [reflexivity|].
  destruct (String.eqb c0 c) eqn:E; simpl.
  - apply String.eqb_eq in E. subst c0. rewrite IH. simpl.
    rewrite String.eqb_refl. destruct (Pandas.previous c seen); reflexivity.
  - rewrite IH. simpl. rewrite String.eqb_sym, E. reflexivity.
Qed.

Lemma groupby_rolling_mean_col w c frame : forall seen,
  col c (combine (map fst frame) (Pandas.groupby_rolling_mean w seen frame)) =
  local_roll w (Pandas.earlier c seen) (col c frame).
Proof.
  unfold col.
  induction frame as [|[c0 v] rest IH]; simpl; intro seen; [reflexivity|].
  destruct (String.eqb c0 c) eqn:E; simpl.
  - apply String.eqb_eq in E. subst c0. rewrite IH.
    unfold Pandas.earlier. simpl. rewrite String.eqb_refl. reflexivity.
  - rewrite IH. unfold Pandas.earlier. simpl.
    rewrite String.eqb_sym, E. reflexivity.
Qed.

Lemma local_diff_nth vals : forall prev i,
  (i < List.length vals)%nat ->
  nth i (local_diff prev vals) 0 =
  match i with
  | O =>
      match prev with
      | Some p => Pandas.float64_sub (nth 0 vals 0) p
      | None => 0
      end
  | S j => Pandas.float64_sub (nth i vals 0) (nth j vals 0)
  end.
Proof.
  induction vals as [|v rest IH]; simpl; intros prev i Hi; [lia|].
  destruct i as [|j]; [reflexivity|].
  rewrite IH by lia. destruct j; reflexivity.
Qed.

Lemma local_roll_nth w vals : forall past i,
  (i < List.length vals)%nat ->
  nth i (local_roll w past vals) 0%Q =
  Pandas.mean (firstn w (rev (firstn (S i) vals) ++ past)).
Proof.
  induction vals as [|v rest IH]; simpl; intros past i Hi; [lia|].
  destruct i as [|j].
  - destruct rest; reflexivity.
  - rewrite IH by lia.
    replace (rev (firstn (S j) rest) ++ v :: past)
      with ((rev (firstn (S j) rest) ++ [v]) ++ past)
      by (rewrite <- app_assoc; reflexivity).
    reflexivity.
Qed.

Lemma sum_Z_app l1 l2 :
  Pandas.sum_Z (l1 ++ l2) = Pandas.sum_Z l1 + Pandas.sum_Z l2.
Proof.
  unfold Pandas.sum_Z. induction l1 as [|x l1 IH]; simpl; [reflexivity|].
  rewrite IH. lia.
Qed.

Lemma sum_Z_rev l : Pandas.sum_Z (rev l) = Pandas.sum_Z l.
Proof.
  induction l as [|x l IH]; simpl; [reflexivity|].
  rewrite sum_Z_app, IH. unfold Pandas.sum_Z. simpl. lia.
Qed.

Lemma window_is_trailing vals i :
  (i < List.length vals)%nat ->
  firstn 7 (rev (firstn (S i) vals)) = rev (trailing_window vals i).
Proof.
  intro Hi. rewrite firstn_rev. f_equal.
  rewrite length_firstn. rewrite Nat.min_l by lia.
  rewrite skipn_firstn_comm. unfold trailing_window.
  replace (S i - 7)%nat with (i - 6)%nat by lia.
  f_equal. lia.
Qed.

Lemma trailing_window_length vals i :
  (i < List.length vals)%nat ->
  List.length (trailing_window vals i) = Nat.min (i + 1) 7.
Proof.
  intro Hi. unfold trailing_window.
  rewrite length_firstn, length_skipn. lia.
Qed.

Lemma mean_rev_arithmetic (w : list Z) :
  w <> [] -> (Pandas.mean (rev w) == arithmetic_mean w)%Q.
Proof.
  intro Hne. unfold Pandas.mean, arithmetic_mean.
  rewrite sum_Z_rev, length_rev, Qmake_Qdiv.
  replace (Z.pos (Pos.of_nat (List.length w))) with (Z.of_nat (List.length w)).
  - reflexivity.
  - destruct w as [|x w]; [contradiction|]. simpl List.length.
    lia.
Qed.

(** ** The derived table, country by country *)

Lemma map_fst_combine {X Y : Type} (xs : list X) : forall ys : list Y,
  List.length ys = List.length xs -> map fst (combine xs ys) = xs.
Proof.
  induction xs as [|x xs IH]; intros [|y ys] Hlen; simpl in *;
    try reflexivity; try discriminate.
  rewrite IH by lia. reflexivity.
Qed.

Lemma daily_new_length gs : List.length (daily_new gs) = List.length gs.
Proof.
  unfold daily_new, Pandas.clip_lower, Pandas.fillna.
  rewrite !length_map, groupby_diff_length, length_map. reflexivity.
Qed.

Lemma seven_day_average_length gs ds :
  List.length ds = List.length gs ->
  List.length (seven_day_average gs ds) = List.length gs.
Proof.
  intro Hlen. unfold seven_day_average.
  rewrite groupby_rolling_mean_length, length_combine, length_map. lia.
Qed.

Ltac by_rows gs :=
  unfold series, col, Pandas.assign_metrics;
  induction gs as [|g gs IH]; intros [|d ds] [|q qs] Hd Hq; simpl in *;
  try reflexivity; try discriminate;
  destruct (String.eqb (Pandas.g_country g) _); simpl;
  rewrite IH by lia; reflexivity.

Lemma series_confirmed c gs : forall ds qs,
  List.length ds = List.length gs -> List.length qs = List.length gs ->
  map Confirmed (series c (Pandas.assign_metrics gs ds qs)) =
  col c (map (fun g => (Pandas.g_country g, Pandas.g_confirmed g)) gs).
Proof. by_rows gs. Qed.

Lemma series_daily c gs : forall ds qs,
  List.length ds = List.length gs -> List.length qs = List.length gs ->
  map Daily_New (series c (Pandas.assign_metrics gs ds qs)) =
  col c (combine (map Pandas.g_country gs) ds).
Proof. by_rows gs. Qed.

Lemma series_average c gs : forall ds qs,
  List.length ds = List.length gs -> List.length qs = List.length gs ->
  map Seven_Day_Average (series c (Pandas.assign_metrics gs ds qs)) =
  col c (combine (map Pandas.g_country gs) qs).
Proof. by_rows gs. Qed.

Lemma table_keys gs : forall ds qs,
  List.length ds = List.length gs -> List.length qs = List.length gs ->
  map (fun r => (Country r, Date r)) (Pandas.assign_metrics gs ds qs) = keys gs.
Proof.
  unfold Pandas.assign_metrics, keys.
  induction gs as [|g gs IH]; intros [|d ds] [|q qs] Hd Hq; simpl in *;
    try reflexivity; try discriminate.
  rewrite IH by lia. reflexivity.
Qed.

(** The two derived columns of a country are the clamped differences of
    its Confirmed column and the rolling means of those. *)
Lemma derive_series c frame :
  let s := series c (derive frame) in
  map Daily_New s = map (Z.max 0) (local_diff None (map Confirmed s)) /\
  map Seven_Day_Average s = local_roll 7 [] (map Daily_New s).
Proof.
  unfold derive. set (gs := Pandas.groupby_sum frame).
  pose proof (daily_new_length gs) as Hd.
  pose proof (seven_day_average_length gs _ Hd) as Hq.
  simpl. rewrite series_daily, series_average, series_confirmed by assumption.
  split.
  - unfold daily_new, Pandas.clip_lower. rewrite col_map. f_equal.
    set (F := map (fun g => (Pandas.g_country g, Pandas.g_confirmed g)) gs).
    replace (map Pandas.g_country gs) with (map fst F)
      by (unfold F; rewrite map_map; reflexivity).
    apply groupby_diff_col.
  - unfold seven_day_average.
    set (F := combine (map Pandas.g_country gs) (daily_new gs)).
    replace (map Pandas.g_country gs) with (map fst F) at 1
      by (unfold F; apply map_fst_combine; rewrite length_map; exact Hd).
    apply groupby_rolling_mean_col.
Qed.

Lemma StronglySorted_map_inv {X Y : Type} (R : Y -> Y -> Prop) (f : X -> Y)
  (l : list X) :
  StronglySorted R (map f l) -> StronglySorted (fun a b => R (f a) (f b)) l.
Proof.
  induction l as [|x l IH]; simpl; intro Hs; [constructor|].
  inversion Hs as [|? ? Hrest Hall]; subst. constructor; [auto|].
  rewrite Forall_map in Hall. exact Hall.
Qed.

Lemma StronglySorted_filter {X : Type} (R : X -> X -> Prop) (p : X -> bool)
  (l : list X) :
  StronglySorted R l -> StronglySorted R (filter p l).
Proof.
  induction 1 as [|x l Hs IH Hall]; simpl; [constructor|].
  destruct (p x); [|exact IH]. constructor; [exact IH|].
  rewrite Forall_forall in *. intros y Hy. apply Hall.
  apply filter_In in Hy. tauto.
Qed.

Lemma StronglySorted_weaken {X : Type} (R R' : X -> X -> Prop) (l : list X) :
  (forall a b, In a l -> In b l -> R a b -> R' a b) ->
  StronglySorted R l -> StronglySorted R' l.
Proof.
  intros Himp Hs. induction Hs as [|x l Hs IH Hall]; [constructor|].
  constructor.
  - apply IH. intros a b Ha Hb. apply Himp; right; assumption.
  - rewrite Forall_forall in *. intros y Hy.
    apply Himp; [left; reflexivity | right; exact Hy | apply Hall; exact Hy].
Qed.

(** The derived table is in (country, date) order. *)
Lemma derive_sorted frame :
  StronglySorted (fun a b => key_lt (Country a, Date a) (Country b, Date b))
                 (derive frame).
Proof.
  apply StronglySorted_map_inv with (f := fun r => (Country r, Date r)).
  unfold derive. rewrite table_keys.
  - apply groupby_sum_sorted.
  - apply daily_new_length.
  - apply seven_day_average_length, daily_new_length.
Qed.

Lemma series_sorted c frame : StronglySorted date_lt (series c (derive frame)).
Proof.
  apply StronglySorted_weaken
    with (R := fun a b => key_lt (Country a, Date a) (Country b, Date b)).
  - intros a b Ha Hb. unfold series in Ha, Hb.
    apply filter_In in Ha, Hb. destruct Ha as [_ Ha], Hb as [_ Hb].
    apply String.eqb_eq in Ha, Hb.
    unfold key_lt, Pandas.key_ltb, date_lt. simpl.
    rewrite Ha, Hb, compare_refl. apply Z.ltb_lt.
  - apply StronglySorted_filter. apply derive_sorted.
Qed.

(** ** Running [process_data] *)

Lemma process_data_run guess_parse self df :
  data self = Some df ->
  match reshape guess_parse df with
  | Ok melted_df =>
      exists log,
        process_data guess_parse self =
        (Ok (derive melted_df),
         mkProcessor (Some df) (Some (derive melted_df)) log)
  | Err e =>
      exists log,
        process_data guess_parse self =
        (Err e, mkProcessor (Some df) (country_data self) log)
  end.
Proof.
  destruct self as [d cd log]. simpl. intros ->.
  unfold reshape, convert_dates.
  cbv beta iota zeta
    delta [process_data try_except bind get_self lift log_debug
           set_country_data raise ret data country_data debug_info].
  destruct (Pandas.melt df id_vars (skipn 4 (columns df))) as [melted|e].
  - match goal with |- context [Nat.ltb 0 ?n] => destruct (Nat.ltb 0 n) end;
      unfold derive;
      match goal with
      | |- context [Pandas.assign_metrics ?g ?d ?a] =>
          destruct (Pandas.assign_metrics g d a)
      end; eexists; reflexivity.
  - eexists; reflexivity.
Qed.

Lemma process_data_ok guess_parse self table :
  fst (process_data guess_parse self) = Ok table ->
  exists df melted_df,
    data self = Some df /\
    reshape guess_parse df = Ok melted_df /\
    table = derive melted_df /\
    country_data (snd (process_data guess_parse self)) = Some table.
Proof.
  intro Hrun. destruct (data self) as [df|] eqn:Hdata.
  - pose proof (process_data_run guess_parse self df Hdata) as Hspec.
    destruct (reshape guess_parse df) as [melted|e] eqn:Hre.
    + destruct Hspec as [log Hspec]. rewrite Hspec in Hrun |- *.
      simpl in Hrun. injection Hrun as <-.
      exists df, melted. repeat split; auto.
    + destruct Hspec as [log Hspec]. rewrite Hspec in Hrun.
      simpl in Hrun. discriminate.
  - exfalso. destruct self as [d cd log]. simpl in Hdata. subst d.
    cbv in Hrun. discriminate.
Qed.

Lemma in_series c table r :
  In r table -> Country r = c -> In r (series c table).
Proof.
  intros Hin Hc. unfold series. apply filter_In. split; [exact Hin|].
  apply String.eqb_eq. exact Hc.
Qed.

Lemma daily_new_nonneg frame r : In r (derive frame) -> 0 <= Daily_New r.
Proof.
  intro Hin.
  assert (Hs : In (Daily_New r) (map Daily_New (series (Country r) (derive frame)))).
  { apply in_map. apply in_series; auto. }
  rewrite (proj1 (derive_series (Country r) frame)) in Hs.
  apply in_map_iff in Hs. destruct Hs as [x [<- _]]. lia.
Qed.

Lemma nth_exact_count (s : list CountryRow) : forall i,
  (forall r, In r s -> exact_count (Confirmed r)) ->
  (i < List.length s)%nat ->
  exact_count (nth i (map Confirmed s) 0).
Proof.
  induction s as [|r s IH]; intros i Hall Hi; simpl in Hi; [lia|].
  destruct i as [|i]; simpl.
  - apply Hall. left. reflexivity.
  - apply IH; [|lia]. intros r' Hr'. apply Hall. right. exact Hr'.
Qed.

(** C1. For every country, the rows of the derived table are in ascending
    date order, the first row has [Daily_New = 0], and every later row has
    the float64 difference to the row before it, clamped at 0. Where the
    cumulative counts of the country are non-negative and within 2^53 (the
    range in which float64 is exact) that is
    [Daily_New = max(0, Confirmed[i] - Confirmed[i-1])]. [Daily_New] is
    non-negative on every row of the table, whatever the cumulative
    sequence does and however large it is. *)
Theorem daily_new_clamped_difference
  (guess_parse : list string -> string -> option Timestamp)
  (self : Processor) (table : list CountryRow) (c : string) (i : nat) :
  fst (process_data guess_parse self) = Ok table ->
  (i < List.length (series c table))%nat ->
  let confirmed := map Confirmed (series c table) in
  StronglySorted date_lt (series c table) /\
  nth i (map Daily_New (series c table)) 0 =
    match i with
    | O => 0
    | S j => Z.max 0 (Pandas.float64_sub (nth i confirmed 0) (nth j confirmed 0))
    end /\
  ((forall r, In r (series c table) -> exact_count (Confirmed r)) ->
   nth i (map Daily_New (series c table)) 0 =
     match i with
     | O => 0
     | S j => Z.max 0 (nth i confirmed 0 - nth j confirmed 0)
     end) /\
  (forall r, In r table -> 0 <= Daily_New r).
Proof.
  intros Hrun Hi confirmed.
  destruct (process_data_ok _ _ _ Hrun) as [df [melted [_ [_ [-> _]]]]].
  assert (Hnth :
    nth i (map Daily_New (series c (derive melted))) 0 =
    match i with
    | O => 0
    | S j => Z.max 0 (Pandas.float64_sub (nth i confirmed 0) (nth j confirmed 0))
    end).
  { rewrite (proj1 (derive_series c melted)). fold confirmed.
    etransitivity; [exact (map_nth (Z.max 0) _ 0 i)|].
    rewrite local_diff_nth by (unfold confirmed; rewrite length_map; exact Hi).
    destruct i; reflexivity. }
  split; [apply series_sorted|]. split; [exact Hnth|]. split.
  - intro Hexact. rewrite Hnth. destruct i as [|j]; [reflexivity|].
    rewrite float64_sub_exact; [reflexivity | |];
      apply nth_exact_count; try exact Hexact; lia.
  - intros r Hr. eapply daily_new_nonneg; eassumption.
Qed.

Lemma daily_new_clamped_difference_witness :
  nth 2 (map Daily_New (series "China" (derive feed_long))) 0 =
  Z.max 0 (11 - 10).
Proof.
  assert (Hrun : fst (process_data Calendar.infer_parse (loaded feed))
                 = Ok (derive feed_long)) by (vm_compute; reflexivity).
  refine (proj1 (proj2 (proj2 (daily_new_clamped_difference
                                 Calendar.infer_parse (loaded feed)
                                 (derive feed_long) "China" 2%nat Hrun _)))
                _).
  - vm_compute. reflexivity.
  - intros r Hr. vm_compute in Hr.
    repeat (destruct Hr as [<-|Hr]; [vm_compute; split; discriminate|]).
    contradiction.
Defined.

(** C2. For every country and every index i of its rows,
    [Seven_Day_Average[i]] is the arithmetic mean of
    [Daily_New[max(0,i-6) .. i]], a window of min(i+1, 7) points; for the
    daily values 10, 20, ..., 80 it is 40 at index 6 and 10 at index 0. *)
Theorem seven_day_average_trailing_mean :
  (forall (guess_parse : list string -> string -> option Timestamp)
          (self : Processor) (table : list CountryRow) (c : string) (i : nat),
      fst (process_data guess_parse self) = Ok table ->
      (i < List.length (series c table))%nat ->
      let daily := map Daily_New (series c table) in
      (nth i (map Seven_Day_Average (series c table)) 0
       == arithmetic_mean (trailing_window daily i))%Q /\
      List.length (trailing_window daily i) = Nat.min (i + 1) 7) /\
  (let avg := seven_day_average eight_days [10; 20; 30; 40; 50; 60; 70; 80] in
   (nth 6 avg 0 == 40)%Q /\ (nth 0 avg 0 == 10)%Q).
Proof.
  split.
  - intros guess_parse self table c i Hrun Hi daily.
    destruct (process_data_ok _ _ _ Hrun) as [df [melted [_ [_ [-> _]]]]].
    assert (Hlen : (i < List.length daily)%nat)
      by (unfold daily; rewrite length_map; exact Hi).
    split; [|apply trailing_window_length; exact Hlen].
    rewrite (proj2 (derive_series c melted)). fold daily.
    rewrite local_roll_nth by exact Hlen.
    rewrite app_nil_r, window_is_trailing by exact Hlen.
    apply mean_rev_arithmetic.
    intro Hnil. apply (f_equal (@List.length Z)) in Hnil.
    rewrite trailing_window_length in Hnil by exact Hlen. simpl in Hnil. lia.
  - split; reflexivity.
Qed.

Lemma seven_day_average_trailing_mean_witness :
  (nth 2 (map Seven_Day_Average
            (series "China"
               (derive feed_long))) 0
   == arithmetic_mean [0%Z; 4%Z; 1%Z])%Q.
Proof.
  exact (proj1 (proj1 seven_day_average_trailing_mean Calendar.infer_parse
                  (loaded feed) _ "China" 2%nat eq_refl
                  ltac:(vm_compute; lia))).
Defined.

Lemma group_key_Some r c d :
  Pandas.group_key r = Some (c, d) <-> m_country r = CStr c /\ m_date r = DTime d.
Proof.
  unfold Pandas.group_key, cell_text.
  destruct (m_country r), (m_date r); split;
    try (intros [H1 H2]; discriminate); try discriminate.
  - intro H. inversion H. auto.
  - intros [H1 H2]. inversion H1. inversion H2. reflexivity.
Qed.

Lemma fold_left_map {A B C : Type} (f : A -> B -> A) (h : C -> B) (l : list C) :
  forall a, fold_left f (map h l) a = fold_left (fun a x => f a (h x)) l a.
Proof. induction l as [|x l IH]; simpl; intro a; [reflexivity | apply IH]. Qed.

Lemma fold_left_ext {A B : Type} (f g : A -> B -> A) (l : list B) :
  (forall a x, f a x = g a x) -> forall a, fold_left f l a = fold_left g l a.
Proof.
  intro H. induction l as [|x l IH]; simpl; intro a; [reflexivity|].
  rewrite H. apply IH.
Qed.

(** C3. The aggregation step groups the long rows by (country, date) and
    sums their counts: its output has no two rows with the same (country,
    date); a pair is in the output exactly when some input row carries that
    country and that date; the count of an output row is the sum over all
    input rows of its pair; and removing every region name from the input
    changes nothing, so rows without a region name are summed like the
    others. A row whose date is NaT carries no date and gives no pair. The
    sum is an int64 sum: it is the sum of the counts wherever that is exact
    (their absolute values add up to at most 2^53). *)
Theorem groupby_sum_one_row_per_pair (frame : list Melted) :
  NoDup (keys (Pandas.groupby_sum frame)) /\
  (forall c d,
      In (c, d) (keys (Pandas.groupby_sum frame)) <->
      exists r, In r frame /\ m_country r = CStr c /\ m_date r = DTime d) /\
  (forall g,
      In g (Pandas.groupby_sum frame) ->
      exact_sum (group_values (Pandas.g_key g) frame) ->
      Pandas.g_confirmed g =
      Pandas.sum_Z (group_values (Pandas.g_key g) frame)) /\
  Pandas.groupby_sum (map without_region frame) = Pandas.groupby_sum frame.
Proof.
  split; [apply sorted_keys_NoDup, groupby_sum_sorted|]. split; [|split].
  - intros c d. unfold Pandas.groupby_sum. rewrite groupby_fold_keys. simpl.
    split.
    + intros [[]|[r [Hin Hk]]]. exists r. split; [exact Hin|].
      apply group_key_Some. exact Hk.
    + intros [r [Hin Hk]]. right. exists r. split; [exact Hin|].
      apply group_key_Some. exact Hk.
  - intros g Hg Hex. apply groupby_sum_total; assumption.
  - unfold Pandas.groupby_sum. rewrite fold_left_map.
    apply fold_left_ext. intros a x. reflexivity.
Qed.

Lemma groupby_sum_one_row_per_pair_witness :
  In (Pandas.mkGrouped "China" (day 18283) 6) (Pandas.groupby_sum feed_long) /\
  6 = Pandas.sum_Z [5; 1] /\
  In ("China", day 18283) (keys (Pandas.groupby_sum feed_long)).
Proof.
  assert (Hin : In (Pandas.mkGrouped "China" (day 18283) 6)
                   (Pandas.groupby_sum feed_long))
    by (vm_compute; tauto).
  split; [exact Hin|]. split.
  - refine (proj1 (proj2 (proj2 (groupby_sum_one_row_per_pair feed_long)))
              _ Hin _).
    vm_compute. discriminate.
  - apply (proj1 (proj2 (groupby_sum_one_row_per_pair feed_long))).
    eexists. split; [left; reflexivity|].
    split; reflexivity.
Defined.

(** C8. The frame handed to the two derivations is the output of the
    grouping step, which is in (country, date) order: for every country its
    rows are in strictly ascending date order before [Daily_New] and
    [Seven_Day_Average] are computed from them. *)
Theorem derivation_on_chronological_rows
  (guess_parse : list string -> string -> option Timestamp)
  (self : Processor) (table : list CountryRow) :
  fst (process_data guess_parse self) = Ok table ->
  exists grouped : list Pandas.Grouped,
    table = Pandas.assign_metrics grouped (daily_new grouped)
              (seven_day_average grouped (daily_new grouped)) /\
    StronglySorted key_lt (keys grouped) /\
    (forall c,
        StronglySorted (fun a b => Pandas.g_date a < Pandas.g_date b)
          (filter (fun g => String.eqb (Pandas.g_country g) c) grouped)).
Proof.
  intro Hrun.
  destruct (process_data_ok _ _ _ Hrun) as [df [melted [_ [_ [-> _]]]]].
  exists (Pandas.groupby_sum melted).
  split; [reflexivity|]. split; [apply groupby_sum_sorted|].
  intro c.
  apply StronglySorted_weaken
    with (R := fun a b => key_lt (Pandas.g_key a) (Pandas.g_key b)).
  - intros a b Ha Hb. apply filter_In in Ha, Hb.
    destruct Ha as [_ Ha], Hb as [_ Hb]. apply String.eqb_eq in Ha, Hb.
    unfold key_lt, Pandas.key_ltb, Pandas.g_key. simpl.
    rewrite Ha, Hb, compare_refl. apply Z.ltb_lt.
  - apply StronglySorted_filter. apply StronglySorted_map_inv.
    apply groupby_sum_sorted.
Qed.

Lemma derivation_on_chronological_rows_witness :
  exists grouped : list Pandas.Grouped,
    fst (process_data Calendar.infer_parse (loaded feed)) =
    Ok (Pandas.assign_metrics grouped (daily_new grouped)
          (seven_day_average grouped (daily_new grouped))) /\
    StronglySorted (fun a b => Pandas.g_date a < Pandas.g_date b)
      (filter (fun g => String.eqb (Pandas.g_country g) "China") grouped).
Proof.
  destruct (derivation_on_chronological_rows Calendar.infer_parse (loaded feed)
              _ eq_refl) as [grouped [Htable [_ Hsorted]]].
  exists grouped. split; [|apply Hsorted].
  rewrite <- Htable. reflexivity.
Defined.

(** ** Running [filter_data] *)

Lemma derived_feed_store : country_data derived_feed = Some (derive feed_long).
Proof. vm_compute. reflexivity. Qed.

Lemma filter_data_derived guess_parse self table c start_date end_date :
  country_data self = Some table ->
  exists log,
    filter_data guess_parse c start_date end_date self =
    (select guess_parse table c start_date end_date,
     mkProcessor (data self) (Some table) log).
Proof.
  destruct self as [d cd log]. simpl. intros ->.
  unfold select.
  cbv beta iota zeta
    delta [filter_data try_except bind get_self lift log_debug
           raise ret data country_data debug_info].
  fold (series c table).
  destruct (series c table) as [|r rows_c]; [eexists; reflexivity|].
  destruct (to_datetime_scalar guess_parse start_date) as [start|e];
    [|eexists; reflexivity].
  destruct (to_datetime_scalar guess_parse end_date) as [stop|e];
    eexists; reflexivity.
Qed.

Lemma filter_filter {X : Type} (p q : X -> bool) (l : list X) :
  filter q (filter p l) = filter (fun x => p x && q x) l.
Proof.
  induction l as [|x l IH]; simpl; [reflexivity|].
  destruct (p x); simpl; [destruct (q x)|]; rewrite IH; reflexivity.
Qed.

Lemma select_timestamps guess_parse table c start stop :
  select guess_parse table c (ATime start) (ATime stop) =
  Ok (filter (fun r => String.eqb (Country r) c && in_range start stop r) table).
Proof.
  unfold select. simpl. rewrite <- filter_filter. fold (series c table).
  destruct (series c table); reflexivity.
Qed.

(** C5. On a derived dataset, [filter_data] with a country and two dates
    returns exactly the rows of the table whose country equals the argument
    and whose date lies between start and end, both ends included, in
    ascending date order; when no row matches, for a known or an unknown
    country, it returns the empty sequence and raises nothing. *)
Theorem filter_data_inclusive_range
  (guess_parse : list string -> string -> option Timestamp)
  (derived_from self : Processor) (table : list CountryRow)
  (c : string) (start stop : Timestamp) :
  fst (process_data guess_parse derived_from) = Ok table ->
  country_data self = Some table ->
  exists rows_out,
    fst (filter_data guess_parse c (ATime start) (ATime stop) self) = Ok rows_out /\
    (forall r, In r rows_out <->
               In r table /\ Country r = c /\ start <= Date r <= stop) /\
    rows_out = filter (fun r => String.eqb (Country r) c && in_range start stop r)
                      table /\
    StronglySorted date_lt rows_out /\
    ((forall r, In r table -> Country r = c -> ~ start <= Date r <= stop) ->
     rows_out = []).
Proof.
  intros Hrun Hcd.
  destruct (filter_data_derived guess_parse self table c (ATime start)
              (ATime stop) Hcd) as [log Hf].
  rewrite Hf, select_timestamps. simpl.
  eexists. split; [reflexivity|].
  assert (Hin : forall r,
             In r (filter (fun r => String.eqb (Country r) c
                                    && in_range start stop r) table) <->
             In r table /\ Country r = c /\ start <= Date r <= stop).
  { intro r. rewrite filter_In, andb_true_iff, String.eqb_eq.
    unfold in_range. rewrite andb_true_iff, !Z.leb_le. tauto. }
  split; [exact Hin|]. split; [reflexivity|]. split.
  - destruct (process_data_ok _ _ _ Hrun) as [df [melted [_ [_ [-> _]]]]].
    rewrite <- filter_filter. apply StronglySorted_filter.
    apply series_sorted.
  - intro Hnone.
    destruct (filter _ table) as [|r rest] eqn:E; [reflexivity|].
    exfalso. destruct (proj1 (Hin r) (or_introl eq_refl)) as [Ht [Hc Hd]].
    exact (Hnone r Ht Hc Hd).
Qed.

(** C10. On a derived dataset, for a country that no row of the table
    carries, [filter_data] returns the empty result right after the country
    match, whatever the start and end arguments are, also where their
    conversion to a date would raise. *)
Theorem filter_data_unknown_country
  (guess_parse : list string -> string -> option Timestamp)
  (self : Processor) (table : list CountryRow) (c : string)
  (start_date end_date : DateArg) :
  country_data self = Some table ->
  (forall r, In r table -> Country r <> c) ->
  fst (filter_data guess_parse c start_date end_date self) = Ok [].
Proof.
  intros Hcd Hunknown.
  destruct (filter_data_derived guess_parse self table c start_date end_date Hcd)
    as [log Hf].
  rewrite Hf. simpl. unfold select.
  destruct (series c table) as [|r rest] eqn:E; [reflexivity|].
  exfalso. assert (Hr : In r (series c table)) by (rewrite E; left; reflexivity).
  unfold series in Hr. apply filter_In in Hr. destruct Hr as [Ht Hc].
  apply String.eqb_eq in Hc. exact (Hunknown r Ht Hc).
Qed.

Lemma filter_data_inclusive_range_witness :
  exists rows_out,
    fst (filter_data Calendar.infer_parse "China"
           (ATime (day 18284)) (ATime (day 18285)) derived_feed) = Ok rows_out /\
    map Date rows_out = [day 18284; day 18285].
Proof.
  destruct (filter_data_inclusive_range Calendar.infer_parse (loaded feed)
              derived_feed _ "China" (day 18284) (day 18285) eq_refl eq_refl)
    as [rows_out [Hrun [_ [Hrows _]]]].
  exists rows_out. split; [exact Hrun|]. rewrite Hrows. reflexivity.
Defined.

Lemma filter_data_unknown_country_witness :
  fst (filter_data Calendar.infer_parse "Nonexististan"
         (AStr "not a date") (AStr "yesterday") derived_feed) = Ok [].
Proof.
  apply (filter_data_unknown_country Calendar.infer_parse derived_feed
           (derive feed_long) "Nonexististan" (AStr "not a date")
           (AStr "yesterday") derived_feed_store).
  intros r Hr. vm_compute in Hr.
  repeat (destruct Hr as [<-|Hr]; [discriminate|]). contradiction.
Defined.

(** ** [filter_data] before any derivation *)

Lemma process_data_unloaded guess_parse self :
  data self = None ->
  exists log,
    process_data guess_parse self =
    (Err (ValueError "No data to process. Please load data first."),
     mkProcessor None (country_data self) log).
Proof.
  destruct self as [d cd log]. simpl. intros ->.
  eexists. reflexivity.
Qed.

(** C6 (counterexample). With a table loaded and nothing derived,
    [filter_data] does not fail: it derives the table inside the query and
    answers from it. *)
Lemma filter_data_rederives_counterexample :
  country_data (loaded feed) = None /\
  (exists rows_out,
      fst (filter_data Calendar.infer_parse "China"
             (ATime (day 18283)) (ATime (day 18285)) (loaded feed)) = Ok rows_out /\
      map Confirmed rows_out = [6; 10; 11]) /\
  country_data (snd (filter_data Calendar.infer_parse "China"
                       (ATime (day 18283)) (ATime (day 18285)) (loaded feed)))
  = country_data derived_feed.
Proof.
  split; [reflexivity|]. split; [|reflexivity].
  eexists. split; reflexivity.
Qed.

(** What [select] answers: nothing for a country without rows, before the
    dates are looked at; the rows in range for two timestamps; and an
    exception only for a country with rows, from the conversion of the start
    or the end argument. *)
Lemma select_outcome guess_parse table c start_date end_date :
  (series c table = [] ->
   select guess_parse table c start_date end_date = Ok []) /\
  (forall start stop,
      start_date = ATime start -> end_date = ATime stop ->
      select guess_parse table c start_date end_date =
      Ok (filter (in_range start stop) (series c table))) /\
  (forall e,
      select guess_parse table c start_date end_date = Err e ->
      series c table <> [] /\
      (to_datetime_scalar guess_parse start_date = Err e \/
       to_datetime_scalar guess_parse end_date = Err e)).
Proof.
  unfold select. fold (series c table).
  destruct (series c table) as [|r rows_c].
  - split; [reflexivity|]. split; [intros; reflexivity | discriminate].
  - split; [discriminate|]. split.
    + intros start stop -> ->. reflexivity.
    + intros e He. split; [discriminate|].
      destruct (to_datetime_scalar guess_parse start_date) as [start|e1];
        [|left; congruence].
      destruct (to_datetime_scalar guess_parse end_date) as [stop|e2];
        [discriminate | right; congruence].
Qed.

(** C6 (amended). A call to [filter_data] made when nothing is derived
    fails with [ValueError] at once only if no table is loaded, and then
    leaves the store underived. With a table loaded it runs [process_data]
    inside the query. If that raises, the query raises the same exception
    and nothing is stored. If it succeeds, the derived table is stored and
    the query goes on as on a derived store: it returns nothing for a
    country without rows, the rows in range for two timestamps, and it
    raises only for a country with rows whose start or end argument cannot
    be converted to a date, with the exception of that conversion. *)
Theorem filter_data_before_derivation
  (guess_parse : list string -> string -> option Timestamp)
  (self : Processor) (c : string) (start_date end_date : DateArg) :
  country_data self = None ->
  let run := filter_data guess_parse c start_date end_date self in
  match data self with
  | None =>
      fst run = Err (ValueError "No data loaded. Please load data first.") /\
      country_data (snd run) = None
  | Some _ =>
      match fst (process_data guess_parse self) with
      | Ok table =>
          fst run = select guess_parse table c start_date end_date /\
          country_data (snd run) = Some table /\
          (series c table = [] -> fst run = Ok []) /\
          (forall start stop,
              start_date = ATime start -> end_date = ATime stop ->
              fst run = Ok (filter (in_range start stop) (series c table))) /\
          (forall e,
              fst run = Err e ->
              series c table <> [] /\
              (to_datetime_scalar guess_parse start_date = Err e \/
               to_datetime_scalar guess_parse end_date = Err e))
      | Err e =>
          fst run = Err e /\ country_data (snd run) = None
      end
  end.
Proof.
  destruct self as [d cd log]. simpl. intros ->.
  destruct d as [df|].
  - set (self' := mkProcessor (Some df) None
                    (((log ++ [MsgFilter c start_date end_date])
                        ++ [Msg "country_data is None in filter_data"])
                       ++ [Msg "Attempting to process data"])).
    pose proof (process_data_run guess_parse self' df eq_refl) as Hin.
    pose proof (process_data_run guess_parse (mkProcessor (Some df) None log)
                  df eq_refl) as Hout.
    destruct (reshape guess_parse df) as [melted|e].
    + destruct Hin as [log1 Hin]. destruct Hout as [log2 Hout].
      rewrite Hout. cbn [fst].
      assert (Hrun :
        fst (filter_data guess_parse c start_date end_date
               (mkProcessor (Some df) None log)) =
        select guess_parse (derive melted) c start_date end_date /\
        country_data
          (snd (filter_data guess_parse c start_date end_date
                  (mkProcessor (Some df) None log))) = Some (derive melted)).
      { cbv beta iota zeta
          delta [filter_data try_except bind get_self lift log_debug
                 raise ret data country_data debug_info].
        fold self'. rewrite Hin. unfold select.
        cbv beta iota zeta delta [data country_data debug_info].
        fold (series c (derive melted)).
        destruct (series c (derive melted)) as [|r rows_c]; [split; reflexivity|].
        destruct (to_datetime_scalar guess_parse start_date) as [start|e];
          [|split; reflexivity].
        destruct (to_datetime_scalar guess_parse end_date) as [stop|e];
          split; reflexivity. }
      destruct Hrun as [Hfst Hsnd].
      destruct (select_outcome guess_parse (derive melted) c start_date end_date)
        as [Hnone [Htimes Herr]].
      split; [exact Hfst|]. split; [exact Hsnd|].
      rewrite Hfst. split; [exact Hnone|]. split; [exact Htimes | exact Herr].
    + destruct Hin as [log1 Hin]. destruct Hout as [log2 Hout].
      rewrite Hout. simpl.
      cbv beta iota zeta
        delta [filter_data try_except bind get_self lift log_debug
               raise ret data country_data debug_info].
      fold self'. rewrite Hin. split; reflexivity.
  - split; reflexivity.
Qed.

Lemma filter_data_before_derivation_witness :
  fst (filter_data Calendar.infer_parse "China"
         (ATime (day 18283)) (ATime (day 18285)) init)
  = Err (ValueError "No data loaded. Please load data first.") /\
  fst (filter_data Calendar.infer_parse "China"
         (ATime (day 18283)) (AStr "1/23/20") (loaded feed))
  = select Calendar.infer_parse
      (match country_data derived_feed with Some t => t | None => [] end)
      "China" (ATime (day 18283)) (AStr "1/23/20") /\
  (to_datetime_scalar Calendar.infer_parse (ATime (day 18283))
   = Err (ValueError "Unknown datetime string format") \/
   to_datetime_scalar Calendar.infer_parse (AStr "yesterday")
   = Err (ValueError "Unknown datetime string format")).
Proof.
  split; [|split].
  - exact (proj1 (filter_data_before_derivation Calendar.infer_parse init
                    "China" (ATime (day 18283)) (ATime (day 18285)) eq_refl)).
  - exact (proj1 (filter_data_before_derivation Calendar.infer_parse
                    (loaded feed) "China" (ATime (day 18283)) (AStr "1/23/20")
                    eq_refl)).
  - refine (proj2 (proj2 (proj2 (proj2 (proj2
              (filter_data_before_derivation Calendar.infer_parse
                 (loaded feed) "China" (ATime (day 18283)) (AStr "yesterday")
                 eq_refl)))) _ _)).
    vm_compute. reflexivity.
Defined.

(** ** Structural failures of the load *)

Lemma has_column_In name cols :
  Pandas.has_column name cols = true <-> In name cols.
Proof.
  unfold Pandas.has_column. rewrite existsb_exists. split.
  - intros [x [Hin Heq]]. apply String.eqb_eq in Heq. subst. exact Hin.
  - intro Hin. exists name. split; [exact Hin | apply String.eqb_refl].
Qed.

Lemma melt_missing_id df name value_vars :
  In name id_vars -> ~ In name (columns df) ->
  exists e, Pandas.melt df id_vars value_vars = Err e.
Proof.
  intros Hid Hmissing. unfold Pandas.melt.
  destruct (Pandas.has_column "Confirmed" (columns df)); [eexists; reflexivity|].
  destruct (filter _ (id_vars ++ value_vars)) as [|x rest] eqn:E;
    [|eexists; reflexivity].
  exfalso.
  assert (Hin : In name (filter (fun c => negb (Pandas.has_column c (columns df)))
                           (id_vars ++ value_vars))).
  { apply filter_In. split; [apply in_or_app; left; exact Hid|].
    destruct (Pandas.has_column name (columns df)) eqn:Hc; [|reflexivity].
    apply has_column_In in Hc. contradiction. }
  rewrite E in Hin. exact Hin.
Qed.

Lemma load_data_run guess_parse self df :
  match reshape guess_parse df with
  | Ok melted_df =>
      exists log,
        load_data guess_parse (Ok df) self =
        (Ok (derive melted_df),
         mkProcessor (Some df) (Some (derive melted_df)) log)
  | Err e =>
      exists log,
        load_data guess_parse (Ok df) self =
        (Err (Exception "Error loading data: " e),
         mkProcessor (Some df) (country_data self) log)
  end.
Proof.
  destruct self as [d cd log].
  set (self' := mkProcessor (Some df) cd
                  (((log ++ [Msg "Starting to load data"])
                      ++ [MsgShape "Data loaded successfully. Shape: "
                            (List.length (rows df)) (List.length (columns df))])
                     ++ [MsgCols "Columns: " (firstn 10 (columns df))])).
  pose proof (process_data_run guess_parse self' df eq_refl) as Hrun.
  destruct (reshape guess_parse df) as [melted|e]; destruct Hrun as [log1 Hrun];
    cbv beta iota zeta
      delta [load_data try_except bind get_self lift log_debug set_data
             raise ret data country_data debug_info];
    fold self'; rewrite Hrun; eexists; reflexivity.
Qed.

(** C7 (counterexample). A table with the four identification columns and
    no date column is not rejected: [process_data] returns an empty table
    and stores it, so the derived table is not what it was before. *)
Lemma zero_date_columns_counterexample :
  skipn 4 (columns no_dates) = [] /\
  fst (process_data Calendar.infer_parse (loaded no_dates)) = Ok [] /\
  fst (load_data Calendar.infer_parse (Ok no_dates) init) = Ok [] /\
  country_data (loaded no_dates) = None /\
  country_data (snd (process_data Calendar.infer_parse (loaded no_dates)))
  = Some [].
Proof. repeat split; reflexivity. Qed.

(** C7 (amended). For every input table that lacks one of the four
    identification columns, [process_data] raises, [load_data] raises the
    exception wrapped in its own, and the derived table of the store is
    left exactly as it was. A table made of the four identification columns
    and no date column is accepted: the load succeeds and stores an empty
    derived table. *)
Theorem missing_id_column_aborts_load :
  (forall (guess_parse : list string -> string -> option Timestamp)
          (self : Processor) (df : RawTable) (name : string),
      In name id_vars -> ~ In name (columns df) ->
      (data self = Some df ->
       exists e,
         fst (process_data guess_parse self) = Err e /\
         country_data (snd (process_data guess_parse self)) = country_data self) /\
      (exists e,
          fst (load_data guess_parse (Ok df) self) =
          Err (Exception "Error loading data: " e) /\
          country_data (snd (load_data guess_parse (Ok df) self)) =
          country_data self)) /\
  (forall (guess_parse : list string -> string -> option Timestamp)
          (self : Processor) (df : RawTable),
      columns df = id_vars ->
      fst (load_data guess_parse (Ok df) self) = Ok [] /\
      country_data (snd (load_data guess_parse (Ok df) self)) = Some []).
Proof.
  split.
  - intros guess_parse self df name Hid Hmissing.
    assert (Hre : exists e, reshape guess_parse df = Err e).
    { destruct (melt_missing_id df name (skipn 4 (columns df)) Hid Hmissing)
        as [e He].
      exists e. unfold reshape. rewrite He. reflexivity. }
    destruct Hre as [e Hre]. split.
    + intro Hdata.
      pose proof (process_data_run guess_parse self df Hdata) as Hrun.
      rewrite Hre in Hrun. destruct Hrun as [log Hrun].
      exists e. rewrite Hrun. split; reflexivity.
    + pose proof (load_data_run guess_parse self df) as Hrun.
      rewrite Hre in Hrun. destruct Hrun as [log Hrun].
      exists e. rewrite Hrun. split; reflexivity.
  - intros guess_parse self df Hcols.
    pose proof (load_data_run guess_parse self df) as Hrun.
    assert (Hre : reshape guess_parse df = Ok []).
    { unfold reshape, Pandas.melt. rewrite Hcols. reflexivity. }
    rewrite Hre in Hrun. destruct Hrun as [log Hrun].
    rewrite Hrun. split; reflexivity.
Qed.

Lemma missing_id_column_aborts_load_witness :
  (exists e,
      fst (load_data Calendar.infer_parse (Ok no_country) derived_feed) =
      Err (Exception "Error loading data: " e) /\
      country_data (snd (load_data Calendar.infer_parse (Ok no_country)
                           derived_feed)) = country_data derived_feed) /\
  fst (load_data Calendar.infer_parse (Ok no_dates) derived_feed) = Ok [].
Proof.
  split.
  - apply (proj1 missing_id_column_aborts_load Calendar.infer_parse derived_feed
             no_country "Country/Region").
    + simpl. right. left. reflexivity.
    + simpl. intros [H|[H|[H|[H|[]]]]]; discriminate.
  - apply (proj2 missing_id_column_aborts_load Calendar.infer_parse derived_feed
             no_dates). reflexivity.
Defined.

(** ** The country list *)

Lemma cell_eqb_eq a b : Pandas.cell_eqb a b = true <-> a = b.
Proof.
  destruct a, b; simpl; split; intro H; try discriminate; try reflexivity.
  - apply String.eqb_eq in H. congruence.
  - inversion H. apply String.eqb_refl.
  - apply Z.eqb_eq in H. congruence.
  - inversion H. apply Z.eqb_refl.
Qed.

Lemma unique_In col x : In x (Pandas.unique col) <-> In x col.
Proof.
  induction col as [|c rest IH]; simpl; [tauto|].
  rewrite filter_In, IH. split.
  - intros [H|[H _]]; auto.
  - intros [H|H]; [left; exact H|].
    destruct (Pandas.cell_eqb c x) eqn:E.
    + left. apply cell_eqb_eq. exact E.
    + right. split; [exact H | reflexivity].
Qed.

Lemma NoDup_filter {X : Type} (p : X -> bool) (l : list X) :
  NoDup l -> NoDup (filter p l).
Proof.
  induction 1 as [|x l Hnotin Hnd IH]; simpl; [constructor|].
  destruct (p x); [|exact IH]. constructor; [|exact IH].
  intro Hin. apply filter_In in Hin. tauto.
Qed.

Lemma unique_NoDup col : NoDup (Pandas.unique col).
Proof.
  induction col as [|c rest IH]; simpl; constructor.
  - intro Hin. apply filter_In in Hin. destruct Hin as [_ Hneq].
    rewrite (proj2 (cell_eqb_eq c c) eq_refl) in Hneq. discriminate.
  - apply NoDup_filter. exact IH.
Qed.

Lemma all_text_texts (l : list Cell) :
  forallb is_text l = true -> map CStr (texts l) = l.
Proof.
  induction l as [|c rest IH]; simpl; [reflexivity|].
  destruct c; simpl; try discriminate. intro H.
  f_equal. apply IH. exact H.
Qed.

Lemma texts_In (l : list Cell) s : In s (texts l) <-> In (CStr s) l.
Proof.
  unfold texts. rewrite in_flat_map. split.
  - intros [c [Hin Hs]]. destruct c; simpl in Hs; try contradiction.
    destruct Hs as [<-|[]]. exact Hin.
  - intro Hin. exists (CStr s). split; [exact Hin | left; reflexivity].
Qed.

Lemma texts_NoDup (l : list Cell) : NoDup l -> NoDup (texts l).
Proof.
  induction 1 as [|c l Hnotin Hnd IH]; simpl; [constructor|].
  destruct c; simpl; try exact IH.
  constructor; [|exact IH]. rewrite texts_In. exact Hnotin.
Qed.

Lemma insert_sorted_In s l x : In x (insert_sorted s l) <-> x = s \/ In x l.
Proof.
  induction l as [|y rest IH]; simpl; [intuition|].
  destruct (String.leb s y); simpl; [intuition|].
  rewrite IH. intuition.
Qed.

Lemma sort_strings_In l x : In x (sort_strings l) <-> In x l.
Proof.
  induction l as [|y rest IH]; simpl; [tauto|].
  rewrite insert_sorted_In, IH. intuition.
Qed.

Lemma leb_false_lt s x : String.leb s x = false -> string_lt x s.
Proof.
  unfold String.leb, string_lt.
  destruct (String.compare s x) eqn:E; try discriminate.
  intros _. apply compare_gt_lt. exact E.
Qed.

Lemma leb_true_lt s x : String.leb s x = true -> s <> x -> string_lt s x.
Proof.
  unfold String.leb, string_lt.
  destruct (String.compare s x) eqn:E; try discriminate; intros _ Hne.
  - apply String_as_OT.cmp_eq in E. contradiction.
  - reflexivity.
Qed.

Lemma insert_sorted_strict s l :
  StronglySorted string_lt l -> ~ In s l ->
  StronglySorted string_lt (insert_sorted s l).
Proof.
  induction l as [|x rest IH]; simpl; intros Hs Hnotin.
  - constructor; constructor.
  - inversion Hs as [|? ? Hrest Hall]; subst.
    destruct (String.leb s x) eqn:E.
    + assert (Hsx : string_lt s x) by (apply leb_true_lt; auto).
      constructor; [exact Hs|]. constructor; [exact Hsx|].
      eapply Forall_impl; [|exact Hall].
      intros a Ha. eapply string_lt_trans; eassumption.
    + constructor; [apply IH; auto|].
      apply Forall_forall. intros y Hy. apply insert_sorted_In in Hy.
      destruct Hy as [->|Hy]; [apply leb_false_lt; exact E|].
      rewrite Forall_forall in Hall. apply Hall. exact Hy.
Qed.

Lemma sort_strings_strict l :
  NoDup l -> StronglySorted string_lt (sort_strings l).
Proof.
  induction 1 as [|x l Hnotin Hnd IH]; simpl; [constructor|].
  apply insert_sorted_strict; [exact IH|].
  rewrite sort_strings_In. exact Hnotin.
Qed.

Lemma strictly_sorted_NoDup (l : list string) :
  StronglySorted string_lt l -> NoDup l.
Proof.
  induction 1 as [|x l Hs IH Hall]; constructor; [|exact IH].
  intro Hin. rewrite Forall_forall in Hall. specialize (Hall x Hin).
  unfold string_lt in Hall. rewrite compare_refl in Hall. discriminate.
Qed.

Lemma unique_all_text col :
  forallb is_text col = true -> forallb is_text (Pandas.unique col) = true.
Proof.
  rewrite !forallb_forall. intros H x Hx. apply H. apply unique_In. exact Hx.
Qed.

Lemma get_country_list_total self :
  exists countries log,
    get_country_list self =
    (Ok countries, mkProcessor (data self) (country_data self) log).
Proof.
  destruct self as [d cd log].
  cbv beta iota zeta
    delta [get_country_list try_except bind get_self lift log_debug
           raise ret data country_data debug_info].
  destruct d as [df|]; [|eexists; eexists; reflexivity].
  destruct (Pandas.get_column df "Country/Region") as [col|e];
    [|eexists; eexists; reflexivity].
  destruct (sorted (Pandas.unique col)) as [countries|e];
    eexists; eexists; reflexivity.
Qed.

Lemma get_country_list_text self df col :
  data self = Some df ->
  Pandas.get_column df "Country/Region" = Ok col ->
  forallb is_text col = true ->
  fst (get_country_list self) =
  Ok (map CStr (sort_strings (texts (Pandas.unique col)))).
Proof.
  destruct self as [d cd log]. simpl. intros -> Hcol Htext.
  cbv beta iota zeta
    delta [get_country_list try_except bind get_self lift log_debug
           raise ret data country_data debug_info].
  rewrite Hcol. unfold sorted. rewrite (unique_all_text col Htext).
  reflexivity.
Qed.

(** C9. [get_country_list] never raises; with no data loaded it returns
    the empty list; on a loaded table whose Country/Region cells are all
    text it returns the distinct names of that column in strictly ascending
    code-point order, hence without duplicates. *)
Theorem get_country_list_sorted_distinct :
  (forall self : Processor,
      exists countries, fst (get_country_list self) = Ok countries) /\
  (forall self : Processor,
      data self = None -> fst (get_country_list self) = Ok []) /\
  (forall (self : Processor) (df : RawTable) (col : list Cell),
      data self = Some df ->
      Pandas.get_column df "Country/Region" = Ok col ->
      forallb is_text col = true ->
      exists names,
        fst (get_country_list self) = Ok (map CStr names) /\
        StronglySorted string_lt names /\
        NoDup names /\
        (forall s, In s names <-> In (CStr s) col)).
Proof.
  split; [|split].
  - intro self. destruct (get_country_list_total self) as [l [log H]].
    exists l. rewrite H. reflexivity.
  - intros [d cd log]. simpl. intros ->. reflexivity.
  - intros self df col Hdata Hcol Htext.
    exists (sort_strings (texts (Pandas.unique col))).
    assert (Hnd : NoDup (texts (Pandas.unique col)))
      by apply texts_NoDup, unique_NoDup.
    split; [apply (get_country_list_text self df col); assumption|].
    split; [apply sort_strings_strict; exact Hnd|]. split.
    + apply strictly_sorted_NoDup, sort_strings_strict. exact Hnd.
    + intro s. rewrite sort_strings_In, texts_In, unique_In. tauto.
Qed.

Lemma get_country_list_sorted_distinct_witness :
  fst (get_country_list init) = Ok [] /\
  exists names,
    fst (get_country_list (loaded feed)) = Ok (map CStr names) /\
    (forall s, In s names <-> In (CStr s) [CStr "China"; CStr "China"; CStr "Albania"]).
Proof.
  split.
  - exact (proj1 (proj2 get_country_list_sorted_distinct) init eq_refl).
  - destruct (proj2 (proj2 get_country_list_sorted_distinct) (loaded feed) feed
                _ eq_refl eq_refl eq_refl) as [names [Hrun [_ [_ Hin]]]].
    exists names. split; [exact Hrun | exact Hin].
Defined.

(** ** The second date conversion *)

Lemma to_datetime_converted parse parse' col :
  Pandas.to_datetime parse' (Pandas.to_datetime parse col) =
  Pandas.to_datetime parse col.
Proof.
  unfold Pandas.to_datetime. rewrite map_map. apply map_ext.
  intros [s|t|]; [destruct (parse s)|..]; reflexivity.
Qed.

Lemma convert_dates_first_only guess_parse col :
  convert_dates guess_parse col =
  Pandas.to_datetime (guess_parse (Pandas.labels_of col)) col.
Proof.
  unfold convert_dates. destruct (Nat.ltb 0 _); [|reflexivity].
  apply to_datetime_converted.
Qed.

(** C4 (the code at the failing input). The second conversion is given
    the already converted column, so it changes nothing: the Date column is
    what the first conversion made of it. On a table whose first date label
    fixes the format year-month-day, the label 1/23/20 becomes NaT although
    the alternate format reads it; the load goes on, the NaT count 1 is
    logged before and after the second conversion, and the row is left out
    of the derived table. *)
Theorem alternate_format_not_tried_on_label :
  (forall (guess_parse : list string -> string -> option Timestamp)
          (col : list DateCell),
      convert_dates guess_parse col =
      Pandas.to_datetime (guess_parse (Pandas.labels_of col)) col) /\
  Calendar.infer_parse ["2020-01-22"; "1/23/20"] "1/23/20" = None /\
  Calendar.strptime_mdy "1/23/20" = Some (day 18284) /\
  fst (process_data Calendar.infer_parse (loaded mixed_labels)) =
  Ok [mkCountryRow "China" (day 18283) 5 0 0] /\
  In (MsgNum "NaT values after date conversion: " 1 "")
     (debug_info (snd (process_data Calendar.infer_parse (loaded mixed_labels)))) /\
  In (MsgNum "NaT values after alternative date parsing: " 1 "")
     (debug_info (snd (process_data Calendar.infer_parse (loaded mixed_labels)))).
Proof.
  split; [exact convert_dates_first_only|].
  split; [reflexivity|]. split; [reflexivity|]. split; [reflexivity|].
  split; vm_compute; tauto.
Qed.

(** ** The date labels of the feed *)

Example strptime_first_feed_label :
  Calendar.strptime_mdy "1/22/20" = Some (day 18283).
Proof. reflexivity. Qed.

Example strptime_padded_label :
  Calendar.strptime_mdy "01/22/20" = Some (day 18283).
Proof. reflexivity. Qed.

Example strptime_rejects_other_format :
  Calendar.strptime_mdy "2020-01-22" = None.
Proof. reflexivity. Qed.

Example strptime_rejects_invalid_day :
  Calendar.strptime_mdy "2/30/20" = None.
Proof. reflexivity. Qed.

Example strptime_year_month_day :
  Calendar.strptime_ymd "2020-01-22" = Some (day 18283).
Proof. reflexivity. Qed.

Example epoch_day : Calendar.days_from_civil 1970 1 1 = 0.
Proof. reflexivity. Qed.

Example leap_day :
  Calendar.days_from_civil 2020 3 1 - Calendar.days_from_civil 2020 2 28 = 2.
Proof. reflexivity. Qed.

(** * Further properties of the processor *)

(** ** What the methods leave in place *)

Section Keeps.

Variable R : Processor -> Processor -> Prop.
Hypothesis R_refl : forall s, R s s.
Hypothesis R_trans : forall a b c, R a b -> R b c -> R a c.

Lemma keeps_ret {A} (a : A) : keeps R (ret a).
Proof. intro self. apply R_refl. Qed.

Lemma keeps_raise {A} (e : Exn) : keeps R (@raise A e).
Proof. intro self. apply R_refl. Qed.

Lemma keeps_lift {A} (r : result A) : keeps R (lift r).
Proof. intro self. apply R_refl. Qed.

Lemma keeps_get_self : keeps R get_self.
Proof. intro self. apply R_refl. Qed.

Lemma keeps_bind {A B} (c : M A) (k : A -> M B) :
  keeps R c -> (forall a, keeps R (k a)) -> keeps R (bind c k).
Proof.
  intros Hc Hk self. unfold bind. specialize (Hc self).
  destruct (c self) as [[a|e] self']; simpl in *.
  - eapply R_trans; [exact Hc | apply Hk].
  - exact Hc.
Qed.

Lemma keeps_try_except {A} (body : M A) (handler : Exn -> M A) :
  keeps R body -> (forall e, keeps R (handler e)) ->
  keeps R (try_except body handler).
Proof.
  intros Hb Hh self. unfold try_except. specialize (Hb self).
  destruct (body self) as [[a|e] self']; simpl in *.
  - exact Hb.
  - eapply R_trans; [exact Hb | apply Hh].
Qed.

Hypothesis R_log : forall message, keeps R (log_debug message).

Ltac keeps_step :=
  first
    [ match goal with H : context [keeps] |- keeps _ _ => solve [apply H] end
    | apply keeps_try_except
    | apply keeps_bind
    | apply keeps_ret
    | apply keeps_raise
    | apply keeps_lift
    | apply keeps_get_self
    | apply R_log
    | match goal with
      | |- keeps _ (match ?x with _ => _ end) => destruct x
      | |- forall _, _ => intro
      end ].

Lemma keeps_process_data guess_parse :
  (forall cd, keeps R (set_country_data cd)) ->
  keeps R (process_data guess_parse).
Proof.
  intro Hset. unfold process_data. cbv zeta.
  repeat keeps_step.
Qed.

Lemma keeps_filter_data guess_parse c start_date end_date :
  (forall cd, keeps R (set_country_data cd)) ->
  keeps R (filter_data guess_parse c start_date end_date).
Proof.
  intro Hset. pose proof (keeps_process_data guess_parse Hset) as Hpd.
  unfold filter_data. cbv zeta.
  repeat keeps_step.
Qed.

Lemma keeps_get_country_list : keeps R get_country_list.
Proof. unfold get_country_list. repeat keeps_step. Qed.

Lemma keeps_load_data guess_parse fetched :
  (forall cd, keeps R (set_country_data cd)) ->
  (forall df, keeps R (set_data df)) ->
  keeps R (load_data guess_parse fetched).
Proof.
  intros Hset Hdata.
  pose proof (keeps_process_data guess_parse Hset) as Hpd.
  unfold load_data. repeat keeps_step.
Qed.

End Keeps.

Lemma log_extends_refl s : log_extends s s.
Proof. exists []. rewrite app_nil_r. reflexivity. Qed.

Lemma log_extends_trans a b c :
  log_extends a b -> log_extends b c -> log_extends a c.
Proof.
  intros [x Hx] [y Hy]. exists (x ++ y). rewrite Hy, Hx, app_assoc. reflexivity.
Qed.

Lemma log_extends_log message : keeps log_extends (log_debug message).
Proof. intro self. exists [message]. reflexivity. Qed.

(** X1. No method ever removes or rewrites a debug message: after
    [process_data], [load_data], [get_country_list] or [filter_data], whether
    it returned or raised, [debug_info] is the old list with messages added
    at its end. *)
Theorem debug_info_only_grows
  (guess_parse : list string -> string -> option Timestamp) (self : Processor) :
  log_extends self (snd (process_data guess_parse self)) /\
  (forall fetched, log_extends self (snd (load_data guess_parse fetched self))) /\
  log_extends self (snd (get_country_list self)) /\
  (forall c start_date end_date,
      log_extends self (snd (filter_data guess_parse c start_date end_date self))).
Proof.
  assert (Hset : forall cd, keeps log_extends (set_country_data cd))
    by (intros cd s; exists []; simpl; rewrite app_nil_r; reflexivity).
  assert (Hdata : forall df, keeps log_extends (set_data df))
    by (intros df s; exists []; simpl; rewrite app_nil_r; reflexivity).
  split; [|split; [|split]].
  - apply (keeps_process_data log_extends log_extends_refl log_extends_trans
             log_extends_log guess_parse Hset).
  - intro fetched.
    apply (keeps_load_data log_extends log_extends_refl log_extends_trans
             log_extends_log guess_parse fetched Hset Hdata).
  - apply (keeps_get_country_list log_extends log_extends_refl log_extends_trans
             log_extends_log).
  - intros c start_date end_date.
    apply (keeps_filter_data log_extends log_extends_refl log_extends_trans
             log_extends_log guess_parse c start_date end_date Hset).
Qed.

Lemma same_data_trans a b c : same_data a b -> same_data b c -> same_data a c.
Proof. unfold same_data. congruence. Qed.

Lemma same_country_data_trans a b c :
  same_country_data a b -> same_country_data b c -> same_country_data a c.
Proof. unfold same_country_data. congruence. Qed.

(** X2. Only [load_data] changes the loaded table: [process_data],
    [filter_data] and [get_country_list] leave [self.data] as it is, whether
    they return or raise; and [get_country_list] leaves the derived table
    as it is too. *)
Theorem queries_leave_data_in_place
  (guess_parse : list string -> string -> option Timestamp) (self : Processor) :
  data (snd (process_data guess_parse self)) = data self /\
  (forall c start_date end_date,
      data (snd (filter_data guess_parse c start_date end_date self)) = data self) /\
  data (snd (get_country_list self)) = data self /\
  country_data (snd (get_country_list self)) = country_data self.
Proof.
  assert (Hrefl : forall s, same_data s s) by reflexivity.
  assert (Hlog : forall m, keeps same_data (log_debug m)) by (intros m s; reflexivity).
  assert (Hset : forall cd, keeps same_data (set_country_data cd))
    by (intros cd s; reflexivity).
  split; [|split; [|split]].
  - apply (keeps_process_data same_data Hrefl same_data_trans Hlog guess_parse Hset).
  - intros c start_date end_date.
    apply (keeps_filter_data same_data Hrefl same_data_trans Hlog guess_parse
             c start_date end_date Hset).
  - apply (keeps_get_country_list same_data Hrefl same_data_trans Hlog).
  - apply (keeps_get_country_list same_country_data); try reflexivity.
    + exact same_country_data_trans.
    + intros m s. reflexivity.
Qed.

(** ** The answers of [filter_data] *)

Lemma filter_data_run guess_parse self c start_date end_date :
  exists log,
    filter_data guess_parse c start_date end_date self =
    (answer guess_parse self c start_date end_date,
     mkProcessor (data self) (store_after guess_parse self) log).
Proof.
  destruct (country_data self) as [table|] eqn:Hcd.
  - destruct (filter_data_derived guess_parse self table c start_date end_date
                Hcd) as [log Hrun].
    exists log. rewrite Hrun. unfold answer, store_after, table_for.
    rewrite Hcd. reflexivity.
  - destruct self as [d cd log]. simpl in Hcd. subst cd.
    unfold answer, store_after, table_for. simpl.
    destruct d as [df|]; [|eexists; reflexivity].
    set (self' := mkProcessor (Some df) None
                    (((log ++ [MsgFilter c start_date end_date])
                        ++ [Msg "country_data is None in filter_data"])
                       ++ [Msg "Attempting to process data"])).
    pose proof (process_data_run guess_parse self' df eq_refl) as Hin.
    destruct (reshape guess_parse df) as [melted|e]; destruct Hin as [log1 Hin];
      cbv beta iota zeta
        delta [filter_data try_except bind get_self lift log_debug
               raise ret data country_data debug_info];
      fold self'; rewrite Hin; [|eexists; reflexivity].
    unfold select.
    cbv beta iota zeta delta [data country_data debug_info].
    fold (series c (derive melted)).
    destruct (series c (derive melted)) as [|r rows_c]; [eexists; reflexivity|].
    destruct (to_datetime_scalar guess_parse start_date) as [start|e];
      [|eexists; reflexivity].
    destruct (to_datetime_scalar guess_parse end_date) as [stop|e];
      eexists; reflexivity.
Qed.

Lemma table_for_after guess_parse self log :
  table_for guess_parse
    (mkProcessor (data self) (store_after guess_parse self) log) =
  table_for guess_parse self.
Proof.
  unfold store_after, table_for. simpl.
  destruct (country_data self) as [table|]; [reflexivity|].
  destruct (data self) as [df|]; [|reflexivity].
  destruct (reshape guess_parse df); reflexivity.
Qed.

(** X3. The answer of [filter_data] does not depend on the queries made
    before it: after any call of [filter_data], returned or raised, a
    second call gives what it would have given on the object before the
    first one. In particular the table derived inside a query gives the
    same answers as the one a load derives. *)
Theorem filter_data_answer_independent_of_earlier_queries
  (guess_parse : list string -> string -> option Timestamp) (self : Processor)
  (c1 c2 : string) (s1 e1 s2 e2 : DateArg) :
  fst (filter_data guess_parse c2 s2 e2
         (snd (filter_data guess_parse c1 s1 e1 self))) =
  fst (filter_data guess_parse c2 s2 e2 self).
Proof.
  destruct (filter_data_run guess_parse self c1 s1 e1) as [log1 H1].
  rewrite H1. simpl.
  destruct (filter_data_run guess_parse
              (mkProcessor (data self) (store_after guess_parse self) log1)
              c2 s2 e2) as [log2 H2].
  destruct (filter_data_run guess_parse self c2 s2 e2) as [log3 H3].
  rewrite H2, H3. simpl. unfold answer.
  rewrite (table_for_after guess_parse self log1). reflexivity.
Qed.

Lemma filter_none {X : Type} (p : X -> bool) (l : list X) :
  (forall x, In x l -> p x = false) -> filter p l = [].
Proof.
  induction l as [|x l IH]; simpl; intro H; [reflexivity|].
  rewrite (H x (or_introl eq_refl)). apply IH. intros y Hy. apply H. right. exact Hy.
Qed.

(** X4. On a derived store, a range whose start is after its end selects
    nothing: [filter_data] returns the empty table, for a known country as
    for an unknown one, and raises nothing. *)
Theorem filter_data_reversed_range_is_empty
  (guess_parse : list string -> string -> option Timestamp) (self : Processor)
  (table : list CountryRow) (c : string) (start stop : Timestamp) :
  country_data self = Some table ->
  stop < start ->
  fst (filter_data guess_parse c (ATime start) (ATime stop) self) = Ok [].
Proof.
  intros Hcd Hrev.
  destruct (filter_data_derived guess_parse self table c (ATime start)
              (ATime stop) Hcd) as [log Hrun].
  rewrite Hrun, select_timestamps. simpl. f_equal.
  apply filter_none. intros r _. unfold in_range.
  destruct (String.eqb (Country r) c); [simpl|reflexivity].
  destruct (start <=? Date r) eqn:E1; [simpl|reflexivity].
  apply Z.leb_le in E1. apply Z.leb_gt. lia.
Qed.

Lemma filter_data_reversed_range_is_empty_witness :
  fst (filter_data Calendar.infer_parse "China" (ATime (day 18285))
         (ATime (day 18283)) derived_feed) = Ok [].
Proof.
  apply (filter_data_reversed_range_is_empty Calendar.infer_parse derived_feed
           (derive feed_long) "China" (day 18285) (day 18283)
           derived_feed_store).
  reflexivity.
Defined.



(** X6. On a derived store, widening the date range never loses a row:
    every row returned for a range is returned for any range that
    contains it. *)
Theorem filter_data_wider_range_keeps_rows
  (guess_parse : list string -> string -> option Timestamp) (self : Processor)
  (table : list CountryRow) (c : string) (start stop start' stop' : Timestamp)
  (rows_out : list CountryRow) :
  country_data self = Some table ->
  start' <= start -> stop <= stop' ->
  fst (filter_data guess_parse c (ATime start) (ATime stop) self) = Ok rows_out ->
  exists wider,
    fst (filter_data guess_parse c (ATime start') (ATime stop') self) = Ok wider /\
    incl rows_out wider.
Proof.
  intros Hcd Hs He Hrun.
  destruct (filter_data_derived guess_parse self table c (ATime start)
              (ATime stop) Hcd) as [log1 H1].
  destruct (filter_data_derived guess_parse self table c (ATime start')
              (ATime stop') Hcd) as [log2 H2].
  rewrite H1, select_timestamps in Hrun. simpl in Hrun. injection Hrun as <-.
  rewrite H2, select_timestamps. simpl. eexists. split; [reflexivity|].
  intros r Hr. apply filter_In in Hr. apply filter_In.
  destruct Hr as [Hin Hp]. split; [exact Hin|].
  apply andb_true_iff in Hp. destruct Hp as [Hc Hrange].
  unfold in_range in *. apply andb_true_iff in Hrange.
  destruct Hrange as [H3 H4]. apply Z.leb_le in H3, H4.
  rewrite Hc. simpl. apply andb_true_iff. split; apply Z.leb_le; lia.
Qed.

Lemma filter_data_wider_range_keeps_rows_witness :
  exists wider,
    fst (filter_data Calendar.infer_parse "China" (ATime (day 18283))
           (ATime (day 18285)) derived_feed) = Ok wider /\
    In (mkCountryRow "China" (day 18284) 10 4 (4 # 2)) wider.
Proof.
  assert (Hrun : fst (filter_data Calendar.infer_parse "China"
                        (ATime (day 18284)) (ATime (day 18284)) derived_feed)
                 = Ok [mkCountryRow "China" (day 18284) 10 4 (4 # 2)])
    by (vm_compute; reflexivity).
  destruct (filter_data_wider_range_keeps_rows Calendar.infer_parse derived_feed
              (derive feed_long) "China" (day 18284) (day 18284) (day 18283)
              (day 18285) _ derived_feed_store
              ltac:(vm_compute; discriminate) ltac:(vm_compute; discriminate)
              Hrun)
    as [wider [Hwider Hincl]].
  exists wider. split; [exact Hwider|]. apply Hincl. left. reflexivity.
Defined.

(** ** The shape of the long frame *)

Lemma flat_map_length_const {X Y : Type} (f : X -> list Y) (n : nat) (l : list X) :
  (forall x, List.length (f x) = n) ->
  List.length (flat_map f l) = (List.length l * n)%nat.
Proof.
  intro H. induction l as [|x l IH]; simpl; [reflexivity|].
  rewrite length_app, H, IH. reflexivity.
Qed.

Lemma melt_length df melted_df :
  Pandas.melt df id_vars (skipn 4 (columns df)) = Ok melted_df ->
  List.length melted_df =
  (List.length (value_columns df) * List.length (rows df))%nat.
Proof.
  unfold Pandas.melt.
  destruct (Pandas.has_column "Confirmed" (columns df)); [discriminate|].
  destruct (filter _ (id_vars ++ skipn 4 (columns df))); [|discriminate].
  intro H. injection H as <-.
  apply flat_map_length_const. intro label. apply length_map.
Qed.

Lemma to_datetime_length parse col :
  List.length (Pandas.to_datetime parse col) = List.length col.
Proof. apply length_map. Qed.

Lemma to_datetime_no_text parse col :
  Forall (fun d => forall s, d <> DStr s) (Pandas.to_datetime parse col).
Proof.
  apply Forall_forall. intros d Hd. unfold Pandas.to_datetime in Hd.
  apply in_map_iff in Hd. destruct Hd as [c [<- _]].
  destruct c as [s'|t|]; [destruct (parse s')|..]; intros s H; discriminate.
Qed.

Lemma assign_date_length frame col :
  List.length col = List.length frame ->
  List.length (Pandas.assign_date frame col) = List.length frame.
Proof.
  intro H. unfold Pandas.assign_date.
  rewrite length_map, length_combine, H. apply Nat.min_id.
Qed.

Lemma assign_date_dates frame : forall col,
  List.length col = List.length frame ->
  map m_date (Pandas.assign_date frame col) = col.
Proof.
  unfold Pandas.assign_date.
  induction frame as [|r frame IH]; intros [|d col] H; simpl in *;
    try reflexivity; try discriminate.
  rewrite IH by lia. reflexivity.
Qed.

Lemma filter_all {X : Type} (p : X -> bool) (l : list X) :
  (forall x, In x l -> p x = true) -> filter p l = l.
Proof.
  induction l as [|x l IH]; simpl; intro H; [reflexivity|].
  rewrite (H x (or_introl eq_refl)). f_equal. apply IH.
  intros y Hy. apply H. right. exact Hy.
Qed.

Lemma all_value_columns df :
  (forall c, In c (skipn 4 (columns df)) -> ~ In c id_vars) ->
  value_columns df = skipn 4 (columns df).
Proof.
  intro H. unfold value_columns. apply filter_all. intros c Hc.
  destruct (Pandas.has_column c id_vars) eqn:E; [|reflexivity].
  apply has_column_In in E. exfalso. exact (H c Hc E).
Qed.

(** X7. When the reshape succeeds on a table whose date columns are not
    named like identification columns, the long frame has one row for
    every row of the table and every column after the fourth, rows with an
    unparsable label included; and no row of it keeps a text in its Date
    column: each is a timestamp or NaT. *)
Theorem reshape_one_row_per_cell
  (guess_parse : list string -> string -> option Timestamp)
  (df : RawTable) (long : list Melted) :
  reshape guess_parse df = Ok long ->
  (forall c, In c (skipn 4 (columns df)) -> ~ In c id_vars) ->
  List.length long =
  ((List.length (columns df) - 4) * List.length (rows df))%nat /\
  (forall r s, In r long -> m_date r <> DStr s).
Proof.
  intros Hre Hcols. unfold reshape in Hre.
  destruct (Pandas.melt df id_vars (skipn 4 (columns df))) as [melted|e] eqn:Hm;
    [|discriminate].
  injection Hre as <-.
  assert (Hlen : List.length (convert_dates guess_parse (map m_date melted))
                 = List.length melted).
  { rewrite convert_dates_first_only, to_datetime_length. apply length_map. }
  split.
  - rewrite assign_date_length by exact Hlen.
    rewrite (melt_length df melted Hm), all_value_columns by exact Hcols.
    rewrite length_skipn. reflexivity.
  - intros r s Hr.
    assert (Hd : In (m_date r)
                   (map m_date (Pandas.assign_date melted
                      (convert_dates guess_parse (map m_date melted)))))
      by (apply in_map; exact Hr).
    rewrite assign_date_dates in Hd by exact Hlen.
    rewrite convert_dates_first_only in Hd.
    pose proof (to_datetime_no_text
                  (guess_parse (Pandas.labels_of (map m_date melted)))
                  (map m_date melted)) as Hall.
    rewrite Forall_forall in Hall. exact (Hall _ Hd s).
Qed.

Lemma reshape_one_row_per_cell_witness : List.length feed_long = 9%nat.
Proof.
  refine (proj1 (reshape_one_row_per_cell Calendar.infer_parse feed feed_long
                   eq_refl _)).
  intros c Hc Hid. vm_compute in Hc, Hid.
  repeat (destruct Hc as [<-|Hc];
          [repeat (destruct Hid as [Hid|Hid]; [discriminate|]); exact Hid|]).
  exact Hc.
Defined.

(** ** The published table *)

Lemma add_to_group_length k v groups :
  (List.length (Pandas.add_to_group k v groups) <= S (List.length groups))%nat.
Proof.
  induction groups as [|g rest IH]; simpl; [lia|].
  destruct (Pandas.key_ltb k (Pandas.g_key g)); simpl; [lia|].
  destruct (Pandas.key_eqb k (Pandas.g_key g)); simpl; lia.
Qed.

Lemma groupby_fold_length frame : forall acc,
  (List.length (fold_left Pandas.group_step frame acc)
   <= List.length acc + List.length frame)%nat.
Proof.
  induction frame as [|r rest IH]; simpl; intro acc; [lia|].
  eapply Nat.le_trans; [apply IH|].
  unfold Pandas.group_step. destruct (Pandas.group_key r); [|lia].
  pose proof (add_to_group_length p (Pandas.sum_value (m_confirmed r)) acc). lia.
Qed.

Lemma table_groups gs : forall ds qs,
  List.length ds = List.length gs -> List.length qs = List.length gs ->
  map (fun r => Pandas.mkGrouped (Country r) (Date r) (Confirmed r))
      (Pandas.assign_metrics gs ds qs) = gs.
Proof.
  unfold Pandas.assign_metrics.
  induction gs as [|g gs IH]; intros [|d ds] [|q qs] Hd Hq; simpl in *;
    try reflexivity; try discriminate.
  rewrite IH by lia. destruct g; reflexivity.
Qed.

Lemma derive_groups frame :
  map (fun r => Pandas.mkGrouped (Country r) (Date r) (Confirmed r))
      (derive frame) = Pandas.groupby_sum frame.
Proof.
  unfold derive. apply table_groups.
  - apply daily_new_length.
  - apply seven_day_average_length, daily_new_length.
Qed.

(** X8. The table [process_data] publishes has at most one row for a
    country and a date, never more rows than the long frame, and the
    Confirmed of each row is the sum of the counts of the long rows of that
    country and date (missing counts adding nothing) wherever that sum is
    exact: the absolute values of the counts add up to at most 2^53. *)
Theorem published_table_one_row_per_country_and_date
  (guess_parse : list string -> string -> option Timestamp)
  (self : Processor) (df : RawTable) (long : list Melted)
  (table : list CountryRow) :
  data self = Some df ->
  reshape guess_parse df = Ok long ->
  fst (process_data guess_parse self) = Ok table ->
  NoDup (map (fun r => (Country r, Date r)) table) /\
  (List.length table <= List.length long)%nat /\
  (forall r, In r table ->
             exact_sum (group_values (Country r, Date r) long) ->
             Confirmed r = Pandas.sum_Z (group_values (Country r, Date r) long)).
Proof.
  intros Hdata Hre Hrun.
  destruct (process_data_ok _ _ _ Hrun) as [df' [long' [Hdata' [Hre' [-> _]]]]].
  rewrite Hdata in Hdata'. injection Hdata' as <-.
  rewrite Hre in Hre'. injection Hre' as <-.
  split; [|split].
  - apply sorted_keys_NoDup.
    pose proof (derive_sorted long) as Hs.
    clear - Hs. induction Hs as [|r l Hs IH Hall]; simpl; constructor.
    + exact IH.
    + rewrite Forall_map. exact Hall.
  - rewrite <- (length_map
                  (fun r => Pandas.mkGrouped (Country r) (Date r) (Confirmed r))),
      derive_groups.
    exact (groupby_fold_length long []).
  - intros r Hr Hex.
    assert (Hg : In (Pandas.mkGrouped (Country r) (Date r) (Confirmed r))
                   (Pandas.groupby_sum long)).
    { rewrite <- derive_groups.
      apply (in_map (fun r => Pandas.mkGrouped (Country r) (Date r) (Confirmed r))).
      exact Hr. }
    exact (groupby_sum_total long _ Hg Hex).
Qed.

Lemma published_table_one_row_per_country_and_date_witness :
  (List.length (derive feed_long) <= List.length feed_long)%nat /\
  11 = Pandas.sum_Z [7; 4].
Proof.
  assert (Hrun : fst (process_data Calendar.infer_parse (loaded feed))
                 = Ok (derive feed_long)) by (vm_compute; reflexivity).
  pose proof (published_table_one_row_per_country_and_date
                Calendar.infer_parse (loaded feed) feed feed_long
                (derive feed_long) eq_refl eq_refl Hrun) as H.
  split; [exact (proj1 (proj2 H))|].
  refine (proj2 (proj2 H) (mkCountryRow "China" (day 18285) 11 1 (5 # 3)) _ _).
  - vm_compute. tauto.
  - vm_compute. discriminate.
Defined.

(** ** Bounds on the derived columns *)

Lemma sum_Z_bounds (lo hi : Z) (l : list Z) :
  (forall x, In x l -> lo <= x <= hi) ->
  lo * Z.of_nat (List.length l) <= Pandas.sum_Z l <= hi * Z.of_nat (List.length l).
Proof.
  induction l as [|x l IH]; intro H.
  - simpl. lia.
  - assert (Hx : lo <= x <= hi) by (apply H; left; reflexivity).
    assert (Hl : forall y, In y l -> lo <= y <= hi)
      by (intros y Hy; apply H; right; exact Hy).
    specialize (IH Hl). simpl List.length. rewrite Nat2Z.inj_succ.
    unfold Pandas.sum_Z in *. simpl. nia.
Qed.

Lemma mean_bounds (lo hi : Z) (l : list Z) :
  l <> [] ->
  (forall x, In x l -> lo <= x <= hi) ->
  (inject_Z lo <= Pandas.mean l)%Q /\ (Pandas.mean l <= inject_Z hi)%Q.
Proof.
  intros Hne H. pose proof (sum_Z_bounds lo hi l H) as Hs.
  assert (Hp : Z.pos (Pos.of_nat (List.length l)) = Z.of_nat (List.length l)).
  { destruct l as [|x l]; [contradiction|]. simpl List.length. lia. }
  unfold Pandas.mean, Qle, inject_Z. simpl Qnum. simpl Qden.
  rewrite Hp. lia.
Qed.

Lemma firstn_incl {X : Type} (n : nat) (l : list X) x :
  In x (firstn n l) -> In x l.
Proof.
  revert l. induction n as [|n IH]; intros [|y l]; simpl; try tauto.
  intros [H|H]; [left; exact H | right; apply IH; exact H].
Qed.

Lemma local_roll_bounds (lo hi : Z) vals : forall past,
  (forall x, In x past -> lo <= x <= hi) ->
  (forall x, In x vals -> lo <= x <= hi) ->
  forall q, In q (local_roll 7 past vals) ->
            (inject_Z lo <= q)%Q /\ (q <= inject_Z hi)%Q.
Proof.
  induction vals as [|v rest IH]; simpl; intros past Hpast Hvals q Hq;
    [contradiction|].
  assert (Hall : forall x, In x (v :: past) -> lo <= x <= hi).
  { intros x [<-|Hx]; [apply Hvals; left; reflexivity | apply Hpast; exact Hx]. }
  destruct Hq as [<-|Hq].
  - apply mean_bounds; [discriminate|].
    intros x Hx. apply Hall.
    apply (firstn_incl 7 (v :: past)). exact Hx.
  - apply (IH (v :: past)); [exact Hall | | exact Hq].
    intros x Hx. apply Hvals. right. exact Hx.
Qed.

(** X9. In the published table the seven-day average of every row is at
    least 0, and at most any bound that holds for the daily counts of the
    row's country: the smoothed line stays within the range of the bars. *)
Theorem seven_day_average_within_daily_range
  (guess_parse : list string -> string -> option Timestamp)
  (self : Processor) (table : list CountryRow) (r : CountryRow) (peak : Z) :
  fst (process_data guess_parse self) = Ok table ->
  In r table ->
  (forall r', In r' table -> Country r' = Country r -> Daily_New r' <= peak) ->
  (0 <= Seven_Day_Average r)%Q /\ (Seven_Day_Average r <= inject_Z peak)%Q.
Proof.
  intros Hrun Hr Hpeak.
  destruct (process_data_ok _ _ _ Hrun) as [df [long [_ [_ [-> _]]]]].
  set (s := series (Country r) (derive long)).
  assert (Hq : In (Seven_Day_Average r) (map Seven_Day_Average s))
    by (apply in_map, in_series; auto).
  unfold s in Hq. rewrite (proj2 (derive_series (Country r) long)) in Hq.
  apply (local_roll_bounds 0 peak
           (map Daily_New (series (Country r) (derive long))) []);
    [intros x [] | | exact Hq].
  intros x Hx. apply in_map_iff in Hx. destruct Hx as [r' [<- Hr']].
  unfold series in Hr'. apply filter_In in Hr'. destruct Hr' as [Hin Hc].
  apply String.eqb_eq in Hc. split.
  - eapply daily_new_nonneg. exact Hin.
  - apply Hpeak; assumption.
Qed.

Lemma seven_day_average_within_daily_range_witness :
  (0 <= 5 # 3)%Q /\ (5 # 3 <= inject_Z 4)%Q.
Proof.
  refine (seven_day_average_within_daily_range Calendar.infer_parse (loaded feed)
            (derive feed_long) (mkCountryRow "China" (day 18285) 11 1 (5 # 3)) 4
            _ _ _).
  - vm_compute. reflexivity.
  - vm_compute. tauto.
  - intros r' Hr' _. vm_compute in Hr'.
    repeat (destruct Hr' as [<-|Hr']; [vm_compute; discriminate|]).
    contradiction.
Defined.

(** ** Daily counts add up to the rise of the cumulative count *)

Lemma last_default_irrelevant (l : list Z) : forall x d d',
  last (x :: l) d = last (x :: l) d'.
Proof.
  induction l as [|y l IH]; intros x d d'; [reflexivity|].
  change (last (x :: y :: l) d) with (last (y :: l) d).
  change (last (x :: y :: l) d') with (last (y :: l) d').
  apply IH.
Qed.

Lemma last_cons_default (v p : Z) (rest : list Z) :
  last (v :: rest) p = last rest v.
Proof.
  destruct rest as [|y rest]; [reflexivity|].
  change (last (v :: y :: rest) p) with (last (y :: rest) p).
  apply last_default_irrelevant.
Qed.

Lemma sum_Z_cons (x : Z) (l : list Z) :
  Pandas.sum_Z (x :: l) = x + Pandas.sum_Z l.
Proof. reflexivity. Qed.

Lemma clamped_diff_sum vals : forall p,
  Forall exact_count (p :: vals) ->
  Pandas.sum_Z (map (Z.max 0) (local_diff (Some p) vals)) >= last vals p - p /\
  (Sorted Z.le (p :: vals) ->
   Pandas.sum_Z (map (Z.max 0) (local_diff (Some p) vals)) = last vals p - p).
Proof.
  induction vals as [|v rest IH]; intros p Hex.
  - simpl. split; [lia | intros _; lia].
  - inversion Hex as [|? ? Hp Hvals]; subst.
    inversion Hvals as [|? ? Hv _]; subst.
    destruct (IH v Hvals) as [Hge Heq]. rewrite last_cons_default.
    change (local_diff (Some p) (v :: rest))
      with (Pandas.float64_sub v p :: local_diff (Some v) rest).
    rewrite (float64_sub_exact v p Hv Hp).
    rewrite map_cons, sum_Z_cons.
    set (total := Pandas.sum_Z (map (Z.max 0) (local_diff (Some v) rest))) in *.
    set (final := last rest v) in *.
    pose proof (Z.le_max_r 0 (v - p)) as Hmax.
    split; [clearbody total final; lia|].
    intro Hs. inversion Hs as [|? ? Hrest Hhd]; subst.
    inversion Hhd as [|? ? Hpv]; subst.
    rewrite (Heq Hrest). rewrite Z.max_r by lia. lia.
Qed.

(** X10. For every country of the published table whose cumulative counts
    are non-negative and within 2^53 (where the float64 difference is
    exact), the daily counts add up to at least the rise of the cumulative
    count from its first to its last row, and to exactly that rise when the
    cumulative count never falls: clamping only ever adds to the total. *)
Theorem daily_new_sums_to_cumulative_rise
  (guess_parse : list string -> string -> option Timestamp)
  (self : Processor) (table : list CountryRow) (c : string) :
  fst (process_data guess_parse self) = Ok table ->
  (forall r, In r (series c table) -> exact_count (Confirmed r)) ->
  let confirmed := map Confirmed (series c table) in
  let total_new := Pandas.sum_Z (map Daily_New (series c table)) in
  total_new >= last confirmed 0 - hd 0 confirmed /\
  (Sorted Z.le confirmed -> total_new = last confirmed 0 - hd 0 confirmed).
Proof.
  intros Hrun Hexact confirmed total_new.
  destruct (process_data_ok _ _ _ Hrun) as [df [long [_ [_ [-> _]]]]].
  assert (Hex : Forall exact_count confirmed).
  { unfold confirmed. rewrite Forall_map. apply Forall_forall. exact Hexact. }
  unfold total_new. rewrite (proj1 (derive_series c long)). fold confirmed.
  destruct confirmed as [|v rest].
  - simpl. split; [lia | intros _; reflexivity].
  - destruct (clamped_diff_sum rest v Hex) as [Hge Heq].
    rewrite last_cons_default. simpl hd.
    change (local_diff None (v :: rest)) with (0 :: local_diff (Some v) rest).
    rewrite map_cons, sum_Z_cons. rewrite Z.max_id.
    set (total := Pandas.sum_Z (map (Z.max 0) (local_diff (Some v) rest))) in *.
    set (final := last rest v) in *.
    split; [clearbody total final; lia|].
    intro Hs. rewrite (Heq Hs). lia.
Qed.

Lemma daily_new_sums_to_cumulative_rise_witness :
  Pandas.sum_Z (map Daily_New (series "Albania" (derive feed_long))) >= 6 - 3 /\
  Pandas.sum_Z (map Daily_New (series "China" (derive feed_long))) = 11 - 6.
Proof.
  assert (Hrun : fst (process_data Calendar.infer_parse (loaded feed))
                 = Ok (derive feed_long)) by (vm_compute; reflexivity).
  assert (Hexact : forall c r, In r (series c (derive feed_long)) ->
                               exact_count (Confirmed r)).
  { intros c r Hr. unfold series in Hr. apply filter_In in Hr.
    destruct Hr as [Hr _]. vm_compute in Hr.
    repeat (destruct Hr as [<-|Hr]; [vm_compute; split; discriminate|]).
    contradiction. }
  split.
  - exact (proj1 (daily_new_sums_to_cumulative_rise Calendar.infer_parse
                    (loaded feed) (derive feed_long) "Albania" Hrun
                    (Hexact "Albania"))).
  - refine (proj2 (daily_new_sums_to_cumulative_rise Calendar.infer_parse
                     (loaded feed) (derive feed_long) "China" Hrun
                     (Hexact "China")) _).
    vm_compute. repeat constructor; discriminate.
Defined.

(** ** The country list at its edges *)

Lemma get_country_list_run self :
  exists log,
    get_country_list self =
    (match data self with
     | None => Ok []
     | Some df =>
         match Pandas.get_column df "Country/Region" with
         | Err _ => Ok []
         | Ok col =>
             match sorted (Pandas.unique col) with
             | Ok countries => Ok countries
             | Err _ => Ok []
             end
         end
     end,
     mkProcessor (data self) (country_data self) log).
Proof.
  destruct self as [d cd log].
  cbv beta iota zeta
    delta [get_country_list try_except bind get_self lift log_debug
           raise ret data country_data debug_info].
  destruct d as [df|]; [|eexists; reflexivity].
  destruct (Pandas.get_column df "Country/Region") as [col|e];
    [|eexists; reflexivity].
  destruct (sorted (Pandas.unique col)) as [countries|e];
    eexists; reflexivity.
Qed.

Lemma two_distinct_members {X : Type} (l : list X) (a b : X) :
  In a l -> In b l -> a <> b -> (2 <= List.length l)%nat.
Proof.
  destruct l as [|x [|y l]]; simpl; intros Ha Hb Hne.
  - contradiction.
  - destruct Ha as [<-|[]]. destruct Hb as [<-|[]].
    exfalso. apply Hne. reflexivity.
  - lia.
Qed.

(** X11. [get_country_list] gives the empty list, and raises nothing,
    when the loaded table has no Country/Region column, and also when that
    column holds a missing value next to at least one name: the comparison
    of a name with the missing value fails inside [sorted] and the handler
    returns the empty list, so one empty country cell empties the list. *)
Theorem get_country_list_empty_on_bad_column (self : Processor) (df : RawTable) :
  data self = Some df ->
  (Pandas.has_column "Country/Region" (columns df) = false ->
   fst (get_country_list self) = Ok []) /\
  (forall col name,
      Pandas.get_column df "Country/Region" = Ok col ->
      In CNaN col -> In (CStr name) col ->
      fst (get_country_list self) = Ok []).
Proof.
  intro Hdata. destruct (get_country_list_run self) as [log Hrun].
  rewrite Hrun, Hdata. simpl. split.
  - intro Hno. unfold Pandas.get_column. rewrite Hno. reflexivity.
  - intros col name Hcol Hnan Hname. rewrite Hcol.
    assert (Hu1 : In CNaN (Pandas.unique col)) by (apply unique_In; exact Hnan).
    assert (Hu2 : In (CStr name) (Pandas.unique col))
      by (apply unique_In; exact Hname).
    unfold sorted.
    assert (Htext : forallb is_text (Pandas.unique col) = false).
    { destruct (forallb is_text (Pandas.unique col)) eqn:E; [|reflexivity].
      rewrite forallb_forall in E. specialize (E CNaN Hu1). discriminate. }
    rewrite Htext.
    assert (Hlen : (2 <= List.length (Pandas.unique col))%nat).
    { apply (two_distinct_members _ CNaN (CStr name)); auto. discriminate. }
    destruct (Nat.leb (List.length (Pandas.unique col)) 1) eqn:E;
      [apply Nat.leb_le in E; lia | reflexivity].
Qed.

Lemma get_country_list_empty_on_bad_column_witness :
  fst (get_country_list (loaded no_country)) = Ok [] /\
  fst (get_country_list (loaded missing_country)) = Ok [].
Proof.
  split.
  - apply (proj1 (get_country_list_empty_on_bad_column (loaded no_country)
                    no_country eq_refl)).
    reflexivity.
  - apply (proj2 (get_country_list_empty_on_bad_column (loaded missing_country)
                    missing_country eq_refl) [CStr "China"; CNaN] "China"
             eq_refl).
    + right. left. reflexivity.
    + left. reflexivity.
Defined.

(** ** Countries of the table and of the list *)

Lemma melt_country df melted_df m :
  Pandas.melt df id_vars (skipn 4 (columns df)) = Ok melted_df ->
  In m melted_df ->
  exists row, In row (rows df) /\
              m_country m = Pandas.cell_at (columns df) row "Country/Region".
Proof.
  unfold Pandas.melt.
  destruct (Pandas.has_column "Confirmed" (columns df)); [discriminate|].
  destruct (filter _ (id_vars ++ skipn 4 (columns df))); [|discriminate].
  intro H. injection H as <-. intro Hm.
  apply in_flat_map in Hm. destruct Hm as [label [_ Hm]].
  apply in_map_iff in Hm. destruct Hm as [row [<- Hrow]].
  exists row. split; [exact Hrow | reflexivity].
Qed.

Lemma assign_date_country frame col m :
  In m (Pandas.assign_date frame col) ->
  exists m0, In m0 frame /\ m_country m = m_country m0.
Proof.
  unfold Pandas.assign_date. intro H.
  apply in_map_iff in H. destruct H as [[m0 d] [<- Hin]].
  exists m0. split; [|reflexivity].
  apply in_combine_l in Hin. exact Hin.
Qed.

Lemma derive_country long r :
  In r (derive long) ->
  exists m, In m long /\ m_country m = CStr (Country r).
Proof.
  intro Hr.
  assert (Hk : In (Country r, Date r) (keys (Pandas.groupby_sum long))).
  { unfold keys. rewrite <- derive_groups, map_map.
    apply (in_map (fun r => (Country r, Date r))) in Hr. exact Hr. }
  unfold Pandas.groupby_sum in Hk. apply groupby_fold_keys in Hk.
  destruct Hk as [[]|[m [Hm Hkey]]].
  apply group_key_Some in Hkey. exists m. tauto.
Qed.

(** X12. When every Country/Region cell of the loaded table is a text,
    every country of a row of the published table is in the list
    [get_country_list] returns: the table never holds a country the
    dashboard cannot offer. *)
Theorem published_countries_are_listed
  (guess_parse : list string -> string -> option Timestamp)
  (self : Processor) (df : RawTable) (col : list Cell)
  (table : list CountryRow) :
  data self = Some df ->
  Pandas.get_column df "Country/Region" = Ok col ->
  forallb is_text col = true ->
  fst (process_data guess_parse self) = Ok table ->
  exists countries,
    fst (get_country_list self) = Ok countries /\
    forall r, In r table -> In (CStr (Country r)) countries.
Proof.
  intros Hdata Hcol Htext Hrun.
  exists (map CStr (sort_strings (texts (Pandas.unique col)))).
  split; [apply (get_country_list_text self df col); assumption|].
  intros r Hr.
  destruct (process_data_ok _ _ _ Hrun) as [df' [long [Hdata' [Hre [-> _]]]]].
  rewrite Hdata in Hdata'. injection Hdata' as <-.
  destruct (derive_country long r Hr) as [m [Hm Hc]].
  unfold reshape in Hre.
  destruct (Pandas.melt df id_vars (skipn 4 (columns df))) as [melted|e] eqn:Hmelt;
    [|discriminate].
  injection Hre as <-.
  destruct (assign_date_country _ _ m Hm) as [m0 [Hm0 Hc0]].
  destruct (melt_country df melted m0 Hmelt Hm0) as [row [Hrow Hcell]].
  apply in_map. apply sort_strings_In, texts_In, unique_In.
  unfold Pandas.get_column in Hcol.
  destruct (Pandas.has_column "Country/Region" (columns df)); [|discriminate].
  injection Hcol as <-.
  rewrite <- Hc, Hc0, Hcell.
  apply (in_map (fun row => Pandas.cell_at (columns df) row "Country/Region")).
  exact Hrow.
Qed.

Lemma published_countries_are_listed_witness :
  exists countries,
    fst (get_country_list (loaded feed)) = Ok countries /\
    In (CStr "Albania") countries.
Proof.
  destruct (published_countries_are_listed Calendar.infer_parse (loaded feed)
              feed _ (derive feed_long) eq_refl eq_refl eq_refl
              ltac:(vm_compute; reflexivity))
    as [countries [Hrun Hall]].
  exists countries. split; [exact Hrun|].
  apply (Hall (mkCountryRow "Albania" (day 18283) 3 0 0)).
  vm_compute. tauto.
Defined.

(** ** Loading *)

Lemma load_data_fetch_failed guess_parse e self :
  exists log,
    load_data guess_parse (Err e) self =
    (Err (Exception "Error loading data: " e),
     mkProcessor (data self) (country_data self) log).
Proof. destruct self as [d cd log]. eexists. reflexivity. Qed.

(** X13. What [load_data] returns depends on the fetched table only, not
    on what the object held before; when it returns a table, that table is
    the one it stored as [country_data] and the fetched table is stored as
    [data]: a load replaces the earlier dataset and merges nothing. *)
Theorem load_data_replaces_the_dataset
  (guess_parse : list string -> string -> option Timestamp)
  (df : RawTable) (self other : Processor) :
  fst (load_data guess_parse (Ok df) self) =
  fst (load_data guess_parse (Ok df) other) /\
  data (snd (load_data guess_parse (Ok df) self)) = Some df /\
  (forall table,
      fst (load_data guess_parse (Ok df) self) = Ok table ->
      country_data (snd (load_data guess_parse (Ok df) self)) = Some table /\
      fst (process_data guess_parse (snd (load_data guess_parse (Ok df) self)))
      = Ok table).
Proof.
  pose proof (load_data_run guess_parse self df) as H1.
  pose proof (load_data_run guess_parse other df) as H2.
  destruct (reshape guess_parse df) as [long|e] eqn:Hre;
    destruct H1 as [log1 H1]; destruct H2 as [log2 H2]; rewrite H1, H2; simpl.
  - split; [reflexivity|]. split; [reflexivity|].
    intros table Ht. injection Ht as <-. split; [reflexivity|].
    pose proof (process_data_run guess_parse
                  (mkProcessor (Some df) (Some (derive long)) log1) df eq_refl)
      as H3.
    rewrite Hre in H3. destruct H3 as [log3 H3]. rewrite H3. reflexivity.
  - split; [reflexivity|]. split; [reflexivity|]. intros table Ht. discriminate.
Qed.

Lemma load_data_replaces_the_dataset_witness :
  country_data (snd (load_data Calendar.infer_parse (Ok feed)
                       (loaded mixed_labels))) = Some (derive feed_long).
Proof.
  refine (proj1 (proj2 (proj2 (load_data_replaces_the_dataset
                                 Calendar.infer_parse feed (loaded mixed_labels)
                                 init)) (derive feed_long) _)).
  vm_compute. reflexivity.
Defined.

(** X14. A load that fails, because the fetch raised or because the
    fetched table cannot be reshaped, leaves an earlier derived table in
    place, and [filter_data] goes on answering from it exactly as before
    the load; after a failed reshape [self.data] already holds the rejected
    table. *)
Theorem failed_load_keeps_earlier_answers
  (guess_parse : list string -> string -> option Timestamp)
  (self : Processor) (table : list CountryRow) (fetched : result RawTable)
  (e : Exn) (c : string) (start_date end_date : DateArg) :
  country_data self = Some table ->
  fst (load_data guess_parse fetched self) = Err e ->
  fst (filter_data guess_parse c start_date end_date
         (snd (load_data guess_parse fetched self))) =
  fst (filter_data guess_parse c start_date end_date self) /\
  (forall df, fetched = Ok df ->
              data (snd (load_data guess_parse fetched self)) = Some df).
Proof.
  intros Hcd Hfail.
  assert (Hstore : country_data (snd (load_data guess_parse fetched self))
                   = Some table).
  { destruct fetched as [df|e'].
    - pose proof (load_data_run guess_parse self df) as H.
      destruct (reshape guess_parse df); destruct H as [log H];
        rewrite H in Hfail |- *; simpl in *; [discriminate | exact Hcd].
    - destruct (load_data_fetch_failed guess_parse e' self) as [log H].
      rewrite H. exact Hcd. }
  split.
  - destruct (filter_data_derived guess_parse _ table c start_date end_date
                Hstore) as [log1 H1].
    destruct (filter_data_derived guess_parse self table c start_date end_date
                Hcd) as [log2 H2].
    rewrite H1, H2. reflexivity.
  - intros df ->. pose proof (load_data_run guess_parse self df) as H.
    destruct (reshape guess_parse df); destruct H as [log H]; rewrite H;
      reflexivity.
Qed.

Lemma failed_load_keeps_earlier_answers_witness :
  fst (filter_data Calendar.infer_parse "China" (ATime (day 18283))
         (ATime (day 18283))
         (snd (load_data Calendar.infer_parse (Ok no_country) derived_feed))) =
  fst (filter_data Calendar.infer_parse "China" (ATime (day 18283))
         (ATime (day 18283)) derived_feed).
Proof.
  refine (proj1 (failed_load_keeps_earlier_answers Calendar.infer_parse
                   derived_feed (derive feed_long) (Ok no_country)
                   (Exception "Error loading data: "
                      (KeyError ["Country/Region"]))
                   "China" (ATime (day 18283)) (ATime (day 18283))
                   derived_feed_store _)).
  vm_compute. reflexivity.
Defined.

(** * The page and its charts *)

(** ** Rows that reach the page *)

Lemma select_rows_in_table guess_parse table c start_date end_date rows_out :
  select guess_parse table c start_date end_date = Ok rows_out ->
  forall r, In r rows_out -> In r table.
Proof.
  unfold select. fold (series c table).
  assert (Hsub : forall r, In r (series c table) -> In r table).
  { intros r Hr. unfold series in Hr. apply filter_In in Hr. tauto. }
  destruct (series c table) as [|x rest].
  - intro H. injection H as <-. intros r [].
  - destruct (to_datetime_scalar guess_parse start_date) as [start|];
      [|discriminate].
    destruct (to_datetime_scalar guess_parse end_date) as [stop|];
      [|discriminate].
    intro H.
    assert (Hout : rows_out = filter (in_range start stop) (x :: rest))
      by congruence.
    rewrite Hout. intros r Hr. apply Hsub.
    apply (proj1 (filter_In _ _ _) Hr).
Qed.

Lemma filtered_rows_are_published guess_parse derived_from self table c
  start_date end_date rows_out :
  fst (process_data guess_parse derived_from) = Ok table ->
  country_data self = Some table ->
  fst (filter_data guess_parse c start_date end_date self) = Ok rows_out ->
  forall r, In r rows_out -> In r table /\ exists long, table = derive long.
Proof.
  intros Hrun Hcd Hf r Hr.
  destruct (filter_data_derived guess_parse self table c start_date end_date Hcd)
    as [log H].
  rewrite H in Hf. simpl in Hf. split.
  - exact (select_rows_in_table _ _ _ _ _ _ Hf r Hr).
  - destruct (process_data_ok _ _ _ Hrun) as [df [long [_ [_ [-> _]]]]].
    exists long. reflexivity.
Qed.

Lemma sum_Z_nonneg (l : list Z) :
  (forall x, In x l -> 0 <= x) -> 0 <= Pandas.sum_Z l.
Proof.
  induction l as [|y l IH]; intro H; [simpl; lia|].
  rewrite sum_Z_cons.
  assert (0 <= y) by (apply H; left; reflexivity).
  assert (0 <= Pandas.sum_Z l) by (apply IH; intros; apply H; right; auto).
  lia.
Qed.

Lemma mean_nonneg (l : list Z) :
  (forall x, In x l -> 0 <= x) -> (0 <= Pandas.mean l)%Q.
Proof.
  intro H. pose proof (sum_Z_nonneg l H) as Hs.
  unfold Pandas.mean, Qle. simpl Qnum. simpl Qden. lia.
Qed.

Lemma local_roll_nonneg vals : forall past,
  (forall x, In x past -> 0 <= x) ->
  (forall x, In x vals -> 0 <= x) ->
  forall q, In q (local_roll 7 past vals) -> (0 <= q)%Q.
Proof.
  induction vals as [|v rest IH]; intros past Hp Hv q Hq; [contradiction|].
  assert (Hall : forall x, In x (v :: past) -> 0 <= x).
  { intros x [<-|Hx]; [apply Hv; left; reflexivity | apply Hp; exact Hx]. }
  change (local_roll 7 past (v :: rest))
    with (Pandas.mean (firstn 7 (v :: past)) :: local_roll 7 (v :: past) rest)
    in Hq.
  destruct Hq as [<-|Hq].
  - apply mean_nonneg. intros x Hx. apply Hall.
    apply (firstn_incl 7 (v :: past)). exact Hx.
  - apply (IH (v :: past)); [exact Hall | | exact Hq].
    intros x Hx. apply Hv. right. exact Hx.
Qed.

Lemma derive_average_nonneg long r :
  In r (derive long) -> (0 <= Seven_Day_Average r)%Q.
Proof.
  intro Hr.
  assert (Hq : In (Seven_Day_Average r)
                 (map Seven_Day_Average (series (Country r) (derive long))))
    by (apply in_map, in_series; auto).
  rewrite (proj2 (derive_series (Country r) long)) in Hq.
  apply (local_roll_nonneg _ [] ) in Hq; [exact Hq | intros x [] |].
  intros x Hx. apply in_map_iff in Hx. destruct Hx as [r' [<- Hr']].
  unfold series in Hr'. apply filter_In in Hr'.
  eapply daily_new_nonneg. exact (proj1 Hr').
Qed.

(** ** The page *)

Lemma iloc_second_last {X : Type} (col : list X) :
  iloc_from_end 2 col = None <-> (List.length col < 2)%nat.
Proof.
  unfold iloc_from_end. change (Nat.leb 1 2) with true. cbn [andb].
  destruct (Nat.leb 2 (List.length col)) eqn:E.
  - apply Nat.leb_le in E. split; [|lia].
    intro H. apply nth_error_None in H. lia.
  - apply Nat.leb_gt in E. split; [intros _; exact E | reflexivity].
Qed.

(** X15. For the rows [filter_data] returned, the page ends in the error
    box exactly when there is one row: the growth metric reads the row
    before the last one, which a one-row selection does not have. Then the
    three first metrics are on the page and no chart is; with no row only
    the warning is shown, and with two rows or more the three charts are
    shown and no error. *)
Theorem page_fails_on_one_row_selection
  (filtered_data : list CountryRow) (country : string)
  (start_date end_date : Timestamp) :
  let shown := page filtered_data country start_date end_date in
  (existsb is_error shown = true <-> List.length filtered_data = 1%nat) /\
  (List.length filtered_data = 1%nat -> existsb is_chart shown = false) /\
  (filtered_data = [] -> shown = [StWarning country start_date end_date]) /\
  ((2 <= List.length filtered_data)%nat ->
   List.length (filter is_chart shown) = 3%nat).
Proof.
  unfold page, show_selection.
  destruct filtered_data as [|r rest].
  - simpl. repeat split; intros; try easy; lia.
  - cbv zeta.
    destruct (iloc_from_end 2 (map Confirmed (r :: rest))) as [prev|] eqn:E.
    + assert (Hlen : (2 <= List.length (r :: rest))%nat).
      { destruct (Nat.le_gt_cases 2 (List.length (r :: rest))) as [H|H];
          [exact H|].
        exfalso. rewrite <- (length_map Confirmed) in H.
        apply iloc_second_last in H. rewrite E in H. discriminate. }
      simpl List.length in Hlen. simpl.
      repeat split; intros; try easy; try lia; exfalso; lia.
    + assert (Hlen : (List.length (r :: rest) < 2)%nat).
      { rewrite <- (length_map Confirmed). apply iloc_second_last. exact E. }
      simpl List.length in Hlen. simpl.
      repeat split; intros; try easy; try lia; exfalso; lia.
Qed.

Lemma page_fails_on_one_row_selection_witness :
  existsb is_chart
    (page [mkCountryRow "China" (day 18283) 6 0 0] "China" (day 18283)
       (day 18283)) = false.
Proof.
  apply (proj1 (proj2 (page_fails_on_one_row_selection
                         [mkCountryRow "China" (day 18283) 6 0 0] "China"
                         (day 18283) (day 18283)))).
  reflexivity.
Defined.

(** ** The charts *)

Lemma inject_Z_nonneg (z : Z) : 0 <= z -> (0 <= inject_Z z)%Q.
Proof. intro H. unfold Qle. simpl. lia. Qed.

Lemma ratio_nonneg (x prev : Z) :
  0 <= x -> 0 <= prev -> (0 <= inject_Z x / inject_Z prev)%Q.
Proof.
  intros Hx Hp. unfold Qdiv. apply Qmult_le_0_compat.
  - apply inject_Z_nonneg. exact Hx.
  - apply Qinv_le_0_compat. apply inject_Z_nonneg. exact Hp.
Qed.

Lemma growth_not_below (x prev : Z) :
  0 <= x -> 0 <= prev ->
  not_below (-100) (times_100 (float_add (-1) (float_div x prev))).
Proof.
  intros Hx Hp. unfold float_div.
  destruct (prev =? 0) eqn:E.
  - destruct (0 <? x) eqn:E1; [exact I|].
    destruct (x <? 0) eqn:E2; [|exact I].
    apply Z.ltb_lt in E2. lia.
  - simpl. pose proof (ratio_nonneg x prev Hx Hp) as H.
    set (t := (inject_Z x / inject_Z prev)%Q) in *. clearbody t. lra.
Qed.

Lemma pct_change_from_not_below col : forall prev,
  0 <= prev -> (forall x, In x col -> 0 <= x) ->
  Forall (not_below (-100)) (map times_100 (pct_change_from prev col)).
Proof.
  induction col as [|x rest IH]; intros prev Hp Hall; simpl; constructor.
  - apply growth_not_below; [apply Hall; left; reflexivity | exact Hp].
  - apply IH; [apply Hall; left; reflexivity|].
    intros y Hy. apply Hall. right. exact Hy.
Qed.

Lemma pct_change_length col : List.length (pct_change col) = List.length col.
Proof.
  destruct col as [|x rest]; [reflexivity|]. simpl. f_equal.
  revert x. induction rest as [|y rest IH]; intro x; simpl; [reflexivity|].
  rewrite IH. reflexivity.
Qed.

(** X16. For the rows [filter_data] returns from a published table: with
    no row the growth-rate chart is not built, [px.line] raises
    [ValueError]; with at least one row the chart has one line with one
    point per row at the rows' dates, its first point is NaN, and no point
    is below -100 per cent or minus infinity: a value is plus infinity or
    NaN where the day before had no new case, and at least -100
    otherwise. *)
Theorem growth_rate_chart_points
  (guess_parse : list string -> string -> option Timestamp)
  (derived_from self : Processor) (table rows_out : list CountryRow)
  (c country : string) (start_date end_date : DateArg) :
  fst (process_data guess_parse derived_from) = Ok table ->
  country_data self = Some table ->
  fst (filter_data guess_parse c start_date end_date self) = Ok rows_out ->
  (rows_out = [] ->
   exists msg, create_growth_rate_chart rows_out country = Err (ValueError msg)) /\
  (rows_out <> [] ->
   exists fig t,
     create_growth_rate_chart rows_out country = Ok fig /\
     traces fig = [t] /\
     xs t = map Date rows_out /\
     List.length (ys t) = List.length rows_out /\
     hd NaN (ys t) = NaN /\
     Forall (not_below (-100)) (ys t)).
Proof.
  intros Hrun Hcd Hf.
  assert (Hnonneg : forall x, In x (map Daily_New rows_out) -> 0 <= x).
  { intros x Hx. apply in_map_iff in Hx. destruct Hx as [r [<- Hr]].
    destruct (filtered_rows_are_published _ _ _ _ _ _ _ _ Hrun Hcd Hf r Hr)
      as [Hin [long ->]].
    eapply daily_new_nonneg. exact Hin. }
  split.
  - intros ->. eexists. reflexivity.
  - intro Hne. destruct rows_out as [|r rest]; [contradiction|].
    unfold create_growth_rate_chart.
    eexists. eexists. split; [reflexivity|]. split; [reflexivity|].
    cbn [xs ys]. split; [reflexivity|].
    rewrite length_map, pct_change_length, length_map.
    split; [reflexivity|].
    cbn [map] in Hnonneg |- *. unfold pct_change. cbn [map hd].
    split; [reflexivity|]. constructor; [exact I|].
    apply pct_change_from_not_below.
    + apply Hnonneg. left. reflexivity.
    + intros y Hy. apply Hnonneg. right. exact Hy.
Qed.

Lemma growth_rate_chart_points_witness :
  exists fig t,
    create_growth_rate_chart (series "China" (derive feed_long)) "China" = Ok fig /\
    traces fig = [t] /\
    Forall (not_below (-100)) (ys t).
Proof.
  assert (Hrun : fst (process_data Calendar.infer_parse (loaded feed))
                 = Ok (derive feed_long)) by (vm_compute; reflexivity).
  assert (Hf : fst (filter_data Calendar.infer_parse "China"
                      (ATime (day 18283)) (ATime (day 18285)) derived_feed)
               = Ok (series "China" (derive feed_long)))
    by (vm_compute; reflexivity).
  destruct (proj2 (growth_rate_chart_points Calendar.infer_parse (loaded feed)
                     derived_feed (derive feed_long)
                     (series "China" (derive feed_long)) "China" "China"
                     (ATime (day 18283)) (ATime (day 18285)) Hrun
                     derived_feed_store Hf)
                  ltac:(vm_compute; discriminate))
    as [fig [t [Hfig [Ht [_ [_ [_ Hys]]]]]]].
  exists fig, t. repeat split; assumption.
Defined.

(** X17. For the rows [filter_data] returns from a published table, both
    series of the daily-cases chart have one point per row and every point
    is a finite number that is not negative: neither a bar nor the
    moving-average line goes below zero. *)
Theorem daily_cases_chart_is_nonnegative
  (guess_parse : list string -> string -> option Timestamp)
  (derived_from self : Processor) (table rows_out : list CountryRow)
  (c country : string) (start_date end_date : DateArg) (t : Trace) :
  fst (process_data guess_parse derived_from) = Ok table ->
  country_data self = Some table ->
  fst (filter_data guess_parse c start_date end_date self) = Ok rows_out ->
  In t (traces (create_daily_cases_chart rows_out country)) ->
  xs t = map Date rows_out /\
  List.length (ys t) = List.length rows_out /\
  Forall (fun y => exists q, y = Finite q /\ (0 <= q)%Q) (ys t).
Proof.
  intros Hrun Hcd Hf Ht.
  assert (Hpub : forall r, In r rows_out -> exists long, In r (derive long)).
  { intros r Hr.
    destruct (filtered_rows_are_published _ _ _ _ _ _ _ _ Hrun Hcd Hf r Hr)
      as [Hin [long ->]].
    exists long. exact Hin. }
  simpl in Ht. destruct Ht as [<-|[<-|[]]]; simpl; rewrite length_map;
    (split; [reflexivity|]); (split; [reflexivity|]);
    apply Forall_forall; intros y Hy; apply in_map_iff in Hy;
    destruct Hy as [r [<- Hr]]; destruct (Hpub r Hr) as [long Hin].
  - exists (inject_Z (Daily_New r)). split; [reflexivity|].
    apply inject_Z_nonneg. eapply daily_new_nonneg. exact Hin.
  - exists (Seven_Day_Average r). split; [reflexivity|].
    eapply derive_average_nonneg. exact Hin.
Qed.

Lemma daily_cases_chart_is_nonnegative_witness :
  Forall (fun y => exists q, y = Finite q /\ (0 <= q)%Q)
    (map (fun r => of_Z (Daily_New r)) (series "China" (derive feed_long))).
Proof.
  assert (Hrun : fst (process_data Calendar.infer_parse (loaded feed))
                 = Ok (derive feed_long)) by (vm_compute; reflexivity).
  assert (Hf : fst (filter_data Calendar.infer_parse "China"
                      (ATime (day 18283)) (ATime (day 18285)) derived_feed)
               = Ok (series "China" (derive feed_long)))
    by (vm_compute; reflexivity).
  exact (proj2 (proj2
           (daily_cases_chart_is_nonnegative Calendar.infer_parse (loaded feed)
              derived_feed (derive feed_long)
              (series "China" (derive feed_long)) "China" "China"
              (ATime (day 18283)) (ATime (day 18285)) _ Hrun
              derived_feed_store Hf (or_introl eq_refl)))).
Defined.
